(** * Filtro backend: typed filter predicates and the composite-key join

    A shallow embedding of [backend/server.js] (the GB-ready revision with
    the reference-file join), followed by the properties it satisfies.

    Layout: the ECMAScript built-ins the server relies on (module [JS]),
    cells and rows, the server's own functions ([detectDataType] and
    [parseExcel] in [Upload], [evaluateFilter], [applyFiltersWithLogic] and
    [applyFilters], the two routes in [FilterRoute] and [ReferenceRoute]),
    the vocabulary and the example inputs of the properties, then the
    properties themselves. *)

From Stdlib Require Import ZArith Lia Ascii String List Bool.
From Stdlib Require Import Floats.SpecFloat.
From stdpp Require Import base option list strings gmap.

Local Open Scope Z_scope.

(** ** ECMAScript built-ins

    Strings are sequences of code units below 256 (the Latin-1 range), one
    [ascii] per code unit.  Numbers are IEEE-754 binary64 values in the
    representation of [SpecFloat]. *)
Module JS.

(** *** Code units *)

Definition code (c : ascii) : Z := Z.of_N (N_of_ascii c).

Definition between_codes (lo hi : Z) (c : ascii) : bool :=
  (lo <=? code c) && (code c <=? hi).

(** WhiteSpace and LineTerminator code units: TAB, LF, VT, FF, CR, SP and
    NBSP. *)
Definition isWhiteSpace (c : ascii) : bool :=
  between_codes 9 13 c || (code c =? 32) || (code c =? 160).

(** Lower-case mapping of one code unit: A-Z and the Latin-1 capitals
    (U+00C0..U+00DE without the multiplication sign U+00D7). *)
Definition isUpper (c : ascii) : bool :=
  between_codes 65 90 c ||
  (between_codes 192 222 c && negb (code c =? 215)).

Definition lowerChar (c : ascii) : ascii :=
  if isUpper c then ascii_of_N (Z.to_N (code c + 32)) else c.

Definition isDigit (c : ascii) : bool := between_codes 48 57 c.

Definition digitValue (c : ascii) : Z := code c - 48.

(** *** String.prototype methods *)

Fixpoint toLowerCase (s : string) : string :=
  match s with
  | EmptyString => EmptyString
  | String c s' => String (lowerChar c) (toLowerCase s')
  end.

Fixpoint trimStart (s : string) : string :=
  match s with
  | EmptyString => EmptyString
  | String c s' => if isWhiteSpace c then trimStart s' else s
  end.

Fixpoint trimEnd (s : string) : string :=
  match s with
  | EmptyString => EmptyString
  | String c s' =>
      match trimEnd s' with
      | EmptyString => if isWhiteSpace c then EmptyString else String c EmptyString
      | t => String c t
      end
  end.

Definition trim (s : string) : string := trimEnd (trimStart s).

(** [s.startsWith(p)] *)
Fixpoint startsWith (s p : string) : bool :=
  match p, s with
  | EmptyString, _ => true
  | String _ _, EmptyString => false
  | String a p', String b s' => if ascii_dec a b then startsWith s' p' else false
  end.

(** [s.includes(p)] *)
Fixpoint includes (s p : string) : bool :=
  startsWith s p ||
  match s with
  | EmptyString => false
  | String _ s' => includes s' p
  end.

(** [s.endsWith(p)] *)
Definition endsWith (s p : string) : bool :=
  startsWith (String.rev s) (String.rev p).

(** [parts.join(sep)] on an array of strings. *)
Fixpoint join (sep : string) (parts : list string) : string :=
  match parts with
  | [] => EmptyString
  | [x] => x
  | x :: rest => x +:+ sep +:+ join sep rest
  end.

(** *** Numbers *)

Definition number := spec_float.

Definition prec : Z := 53.
Definition emax : Z := 1024.

Definition NaN : number := S754_nan.
Definition Infinity (neg : bool) : number := S754_infinity neg.

Definition isNaN_num (x : number) : bool :=
  match x with S754_nan => true | _ => false end.

Definition isFinite_num (x : number) : bool :=
  match x with S754_nan | S754_infinity _ => false | _ => true end.

(** [x === y], [x < y] and [x <= y] on numbers. *)
Definition num_eq (x y : number) : bool := SFeqb x y.
Definition num_lt (x y : number) : bool := SFltb x y.
Definition num_le (x y : number) : bool := SFleb x y.
(** [x > y] and [x >= y]. *)
Definition num_gt (x y : number) : bool := SFltb y x.
Definition num_ge (x y : number) : bool := SFleb y x.

(** The Number value of the decimal [(-1)^neg * m * 10^e], rounded to
    nearest, ties to even. *)
Definition of_decimal (neg : bool) (m e : Z) : number :=
  match m with
  | Zpos p =>
      if 0 <=? e
      then binary_normalize prec emax ((if neg then - m else m) * 10 ^ e) 0 neg
      else SFdiv prec emax (S754_finite neg p 0)
                           (S754_finite false (Z.to_pos (10 ^ (- e))) 0)
  | _ => S754_zero neg
  end.

(** The Number value of an integer. *)
Definition of_Z (z : Z) : number := binary_normalize prec emax z 0 false.

(** *** Numeric literals in strings *)

(** The longest run of decimal digits at the head of [s]: the value
    accumulated onto [acc], the number of digits read, and the rest. *)
Fixpoint scanDigits (s : string) (acc n : Z) : Z * Z * string :=
  match s with
  | String c s' =>
      if isDigit c then scanDigits s' (10 * acc + digitValue c) (n + 1)
      else (acc, n, s)
  | EmptyString => (acc, n, s)
  end.

Definition scanSign (s : string) : bool * string :=
  match s with
  | String "+"%char t => (false, t)
  | String "-"%char t => (true, t)
  | _ => (false, s)
  end.

(** ExponentPart at the head of [s], when there is a complete one. *)
Definition scanExponent (s : string) : Z * string :=
  match s with
  | String c s' =>
      if (code c =? 101) || (code c =? 69) then
        let (neg, t) := scanSign s' in
        let '(v, n, rest) := scanDigits t 0 0 in
        if 0 <? n then (if neg then - v else v, rest) else (0, s)
      else (0, s)
  | EmptyString => (0, s)
  end.

(** Longest prefix of [s] that is a StrUnsignedDecimalLiteral other than
    [Infinity]: mantissa, decimal exponent and the rest. *)
Definition scanUnsignedDecimal (s : string) : option (Z * Z * string) :=
  let '(m1, n1, r1) := scanDigits s 0 0 in
  match r1 with
  | String "."%char r1' =>
      let '(m2, n2, r2) := scanDigits r1' m1 0 in
      if (0 <? n1) || (0 <? n2) then
        let (x, r3) := scanExponent r2 in Some (m2, x - n2, r3)
      else None
  | _ =>
      if 0 <? n1 then
        let (x, r3) := scanExponent r1 in Some (m1, x, r3)
      else None
  end.

Fixpoint dropChars (n : nat) (s : string) : string :=
  match n, s with
  | S n', String _ s' => dropChars n' s'
  | _, _ => s
  end.

(** Longest prefix of [s] that is a StrDecimalLiteral. *)
Definition scanStrDecimalLiteral (s : string) : option (number * string) :=
  let (neg, t) := scanSign s in
  if startsWith t "Infinity" then Some (Infinity neg, dropChars 8 t)
  else match scanUnsignedDecimal t with
       | Some (m, e, rest) => Some (of_decimal neg m e, rest)
       | None => None
       end.

(** [parseFloat] on a string. *)
Definition parseFloat_string (s : string) : number :=
  match scanStrDecimalLiteral (trimStart s) with
  | Some (v, _) => v
  | None => NaN
  end.

(** Digits of the non-decimal integer literals ([0x], [0o], [0b]). *)
Definition radixDigit (radix : Z) (c : ascii) : option Z :=
  let d :=
    if isDigit c then code c - 48
    else if between_codes 97 102 c then code c - 87
    else if between_codes 65 70 c then code c - 55
    else radix in
  if d <? radix then Some d else None.

Fixpoint scanRadix (radix : Z) (s : string) (acc : Z) : option Z :=
  match s with
  | EmptyString => Some acc
  | String c s' =>
      match radixDigit radix c with
      | Some d => scanRadix radix s' (radix * acc + d)
      | None => None
      end
  end.

Definition nonDecimalLiteral (s : string) : number :=
  match s with
  | String "0"%char (String c (String d rest)) =>
      let digits := String d rest in
      let radix :=
        if (code c =? 120) || (code c =? 88) then 16
        else if (code c =? 111) || (code c =? 79) then 8
        else if (code c =? 98) || (code c =? 66) then 2
        else 0 in
      if radix =? 0 then NaN
      else match scanRadix radix digits 0 with
           | Some v => of_Z v
           | None => NaN
           end
  | _ => NaN
  end.

(** StringToNumber: [Number(s)] on a string. *)
Definition StringToNumber (s : string) : number :=
  let t := trim s in
  match t with
  | EmptyString => S754_zero false
  | _ =>
      match scanStrDecimalLiteral t with
      | Some (v, EmptyString) => v
      | _ => nonDecimalLiteral t
      end
  end.

(** *** Number::toString *)

Definition digitChar (d : Z) : ascii := ascii_of_N (Z.to_N (48 + d)).

Fixpoint decimalDigits_go (fuel : nat) (n : Z) (acc : string) : string :=
  match fuel with
  | O => acc
  | S f =>
      if n <? 10 then String (digitChar n) acc
      else decimalDigits_go f (n / 10) (String (digitChar (n mod 10)) acc)
  end.

(** Decimal digits of a non-negative integer, most significant first. *)
Definition decimalDigits (n : Z) : string :=
  decimalDigits_go (S (Z.to_nat (Z.log2 n))) n EmptyString.

Definition strlen (s : string) : Z := Z.of_nat (String.length s).

Fixpoint zeros (n : nat) : string :=
  match n with O => EmptyString | S n' => String "0"%char (zeros n') end.

(** Least [j >= j0] with [num * 10^(j - j0) >= den]. *)
Fixpoint scaleUp (fuel : nat) (num den j0 : Z) : Z :=
  match fuel with
  | O => j0
  | S f => if den <=? num then j0 else scaleUp f (10 * num) den (j0 + 1)
  end.

(** The decimal exponent [n] of the positive rational [num / den]:
    [10^(n-1) <= num / den < 10^n]. *)
Definition decimalExponent (num den : Z) : Z :=
  if den <=? num then strlen (decimalDigits (num / den))
  else 1 - scaleUp (S (Z.to_nat (Z.log2 den))) num den 0.

(** The [k]-digit candidates for the positive number [x = num / den] of
    decimal exponent [n]: the integers [s] next to [x / 10^(n-k)], each
    with its exponent, the closer one first (the even one on a tie). *)
Definition candidates (num den n k : Z) : list (Z * Z) :=
  let numk := if n <=? k then num * 10 ^ (k - n) else num in
  let denk := if n <=? k then den else den * 10 ^ (n - k) in
  let lo := numk / denk in
  let below := (lo, n) in
  let above := if lo + 1 =? 10 ^ k then (10 ^ (k - 1), n + 1) else (lo + 1, n) in
  match 2 * numk ?= (2 * lo + 1) * denk with
  | Lt => [below; above]
  | Gt => [above; below]
  | Eq => if Z.even lo then [below; above] else [above; below]
  end.

(** The shortest digit string [s] (of [k] digits, [k] from the given one
    up) and exponent [n] with [of_decimal s (n - k) = x]. *)
Fixpoint shortest (fuel : nat) (x : number) (num den n k : Z) : Z * Z * Z :=
  let ok := List.filter (fun c : Z * Z => num_eq (of_decimal false (fst c) (snd c - k)) x)
                        (candidates num den n k) in
  match ok, fuel with
  | c :: _, _ => (fst c, snd c, k)
  | [], S f => shortest f x num den n (k + 1)
  | [], O => (num / den, n, k)
  end.

Fixpoint takeChars (n : nat) (s : string) : string :=
  match n, s with
  | S n', String c s' => String c (takeChars n' s')
  | _, _ => EmptyString
  end.

(** The text of a positive finite number from its digits [s] ([k] of
    them) and decimal exponent [n]. *)
Definition formatDecimal (s n k : Z) : string :=
  let digits := decimalDigits s in
  if (k <=? n) && (n <=? 21) then digits +:+ zeros (Z.to_nat (n - k))
  else if (0 <? n) && (n <=? 21) then
    takeChars (Z.to_nat n) digits +:+ "." +:+ dropChars (Z.to_nat n) digits
  else if (-6 <? n) && (n <=? 0) then
    "0." +:+ zeros (Z.to_nat (- n)) +:+ digits
  else
    let e := n - 1 in
    let expo := (if e <? 0 then "-" else "+") +:+ decimalDigits (Z.abs e) in
    if k =? 1 then digits +:+ "e" +:+ expo
    else takeChars 1 digits +:+ "." +:+ dropChars 1 digits +:+ "e" +:+ expo.

(** [String(x)] for a number: the shortest decimal text that reads back
    as [x]; 17 digits always suffice for binary64. *)
Definition Number_toString (x : number) : string :=
  match x with
  | S754_nan => "NaN"
  | S754_zero _ => "0"
  | S754_infinity neg => if neg then "-Infinity" else "Infinity"
  | S754_finite neg m e =>
      let num := if 0 <=? e then Zpos m * 2 ^ e else Zpos m in
      let den := if 0 <=? e then 1 else 2 ^ (- e) in
      let '(s, n, k) :=
        shortest 16 (S754_finite false m e) num den (decimalExponent num den) 1 in
      (if neg then "-" else "") +:+ formatDecimal s n k
  end.

End JS.

(** ** Cells, rows and record sets *)

(** What the host decides about dates: [Date.parse] on text, and the
    local-time renderings.  Time values are milliseconds since the epoch;
    [None] is the NaN time value of an invalid date. *)
Class DateHost := {
  Date_parse : string → option Z;
  Date_toString : Z → string;
  Date_toDateString : Z → string
}.

(** A JavaScript value as it occurs in a cell or in a filter: [null],
    [undefined], text, a number, a [Date] object with a valid time value,
    and what a row inherits from [Object.prototype]: a built-in function
    (by its name) and, under [__proto__], [Object.prototype] itself. *)
Inductive val :=
  | VNull
  | VUndefined
  | VStr (s : string)
  | VNum (n : JS.number)
  | VDate (t : Z)
  | VBuiltin (name : string)
  | VObjectPrototype.

(** A row is an object: its own properties in enumeration order. *)
Abbreviation row := (list (string * val)).

(** [Object.keys(r)] *)
Definition keys (r : row) : list string := map fst r.

(** The members of [Object.prototype], which every row (an object
    literal, or an object that [JSON.parse] or the sheet reader made)
    inherits. *)
Definition Object_prototype : row :=
  [("constructor", VBuiltin "Object");
   ("__defineGetter__", VBuiltin "__defineGetter__");
   ("__defineSetter__", VBuiltin "__defineSetter__");
   ("hasOwnProperty", VBuiltin "hasOwnProperty");
   ("__lookupGetter__", VBuiltin "__lookupGetter__");
   ("__lookupSetter__", VBuiltin "__lookupSetter__");
   ("isPrototypeOf", VBuiltin "isPrototypeOf");
   ("propertyIsEnumerable", VBuiltin "propertyIsEnumerable");
   ("toString", VBuiltin "toString");
   ("valueOf", VBuiltin "valueOf");
   ("__proto__", VObjectPrototype);
   ("toLocaleString", VBuiltin "toLocaleString")].

(** What a row without an own property [column] reads under that name:
    the member of [Object.prototype], or [undefined]. *)
Definition inherited (column : string) : val :=
  match find (fun member => String.eqb (fst member) column) Object_prototype with
  | Some member => snd member
  | None => VUndefined
  end.

(** [r[column]]: the own property, else the inherited one. *)
Fixpoint get (r : row) (column : string) : val :=
  match r with
  | [] => inherited column
  | (k, v) :: r' => if String.eqb k column then v else get r' column
  end.

(** [r[column] = v] for a [column] other than [__proto__] (the code
    assigns under names that start with [ref_]): an existing property
    keeps its place, a new one goes last. *)
Fixpoint set (r : row) (column : string) (v : val) : row :=
  match r with
  | [] => [(column, v)]
  | (k, w) :: r' =>
      if String.eqb k column then (k, v) :: r' else (k, w) :: set r' column v
  end.

(** [headers.includes(h)] *)
Definition includes (l : list string) (h : string) : bool :=
  existsb (String.eqb h) l.

(** [v === null || v === undefined] *)
Definition isNullish (v : val) : bool :=
  match v with VNull | VUndefined => true | _ => false end.

(** [v === ''] *)
Definition isEmptyString (v : val) : bool :=
  match v with VStr EmptyString => true | _ => false end.

(** [arr.slice(start, end)] with integer arguments. *)
Definition relativeIndex (len i : Z) : Z :=
  if i <? 0 then Z.max (len + i) 0 else Z.min i len.

Definition slice {A} (l : list A) (start final : Z) : list A :=
  let len := Z.of_nat (length l) in
  let k := relativeIndex len start in
  take (Z.to_nat (relativeIndex len final - k)) (drop (Z.to_nat k) l).

(** [Math.ceil(n / k)] on integers as [res.json] sends it: a zero divisor
    gives [Infinity] or [NaN], both serialised as [null] ([None]).  For
    array lengths the rounding of the quotient never crosses an integer,
    so the ceiling is that of the exact quotient. *)
Definition Math_ceil_div (n k : Z) : option Z :=
  if k =? 0 then None else Some (- ((- n) / k)).

Inductive dataType := TText | TNumber | TDate.

Definition dataType_name (t : dataType) : string :=
  match t with TText => "text" | TNumber => "number" | TDate => "date" end.

(** The body of a successful response, or the status and error text of a
    failed one. *)
Inductive reply (A : Type) :=
  | Ok (body : A)
  | Err (status : Z) (error : string).
Arguments Ok {A} body.
Arguments Err {A} status error.

(** The pagination fields of a response. *)
Record pageInfo := {
  currentPage : Z;
  totalPages : option Z;
  hasMore : bool
}.

(** The pagination block shared by both filtering routes: the page of
    [rows] and the fields reported with it. *)
Definition paginate {A} (rows : list A) (page pageSize : Z) : list A * pageInfo :=
  let totalRows := Z.of_nat (length rows) in
  let startIndex := (page - 1) * pageSize in
  let endIndex := startIndex + pageSize in
  let paginatedData := slice rows startIndex endIndex in
  (paginatedData,
   {| currentPage := page;
      totalPages := Math_ceil_div totalRows pageSize;
      hasMore := endIndex <? totalRows |}).

(** *** Conversions *)
Section Conversions.
Context `{DateHost}.

(** [String(v)] *)
Definition ToString (v : val) : string :=
  match v with
  | VNull => "null"
  | VUndefined => "undefined"
  | VStr s => s
  | VNum n => JS.Number_toString n
  | VDate t => Date_toString t
  | VBuiltin name => "function " +:+ name +:+ "() { [native code] }"
  | VObjectPrototype => "[object Object]"
  end.

(** [parseFloat(v)] *)
Definition parseFloat (v : val) : JS.number :=
  JS.parseFloat_string (ToString v).

(** [Number(v)], the coercion behind the global [isNaN] and [isFinite];
    an object without a primitive value of its own is converted through
    its text. *)
Definition ToNumber (v : val) : JS.number :=
  match v with
  | VNull => S754_zero false
  | VUndefined => JS.NaN
  | VStr s => JS.StringToNumber s
  | VNum n => n
  | VDate t => JS.of_Z t
  | VBuiltin _ | VObjectPrototype => JS.StringToNumber (ToString v)
  end.

Definition isNaN (v : val) : bool := JS.isNaN_num (ToNumber v).
Definition isFinite (v : val) : bool := JS.isFinite_num (ToNumber v).

(** The integer part of a finite number. *)
Definition truncate (x : JS.number) : option Z :=
  match x with
  | S754_zero _ => Some 0
  | S754_finite neg m e =>
      let a := if 0 <=? e then Zpos m * 2 ^ e else Zpos m / 2 ^ (- e) in
      Some (if neg then - a else a)
  | _ => None
  end.

Definition TimeClip (x : JS.number) : option Z :=
  match truncate x with
  | Some t => if Z.abs t <=? 8640000000000000 then Some t else None
  | None => None
  end.

(** [new Date(v).getTime()], [None] for NaN. *)
Definition Date_new (v : val) : option Z :=
  match v with
  | VDate t => Some t
  | VStr s => Date_parse s
  | VBuiltin _ | VObjectPrototype => Date_parse (ToString v)
  | other => TimeClip (ToNumber other)
  end.

(** [!isNaN(d.getTime())] *)
Definition isValidDate (d : option Z) : bool := bool_decide (is_Some d).

(** [a < b] and [a <= b] on dates (by time value; false with NaN). *)
Definition date_lt (a b : option Z) : bool :=
  match a, b with Some x, Some y => x <? y | _, _ => false end.
Definition date_le (a b : option Z) : bool :=
  match a, b with Some x, Some y => x <=? y | _, _ => false end.

(** [d.toDateString()] *)
Definition toDateString (d : option Z) : string :=
  match d with Some t => Date_toDateString t | None => "Invalid Date" end.

End Conversions.

(** ** Upload: column type inference *)
Module Upload.
Section Upload.
Context `{DateHost}.

(** One position of the calendar-date patterns: a digit or a literal. *)
Inductive patItem := PDigit | PLit (c : ascii).

(** [pattern.test(s)] for an anchored pattern. *)
Fixpoint test (pattern : list patItem) (s : string) : bool :=
  match pattern, s with
  | [], EmptyString => true
  | PDigit :: p', String c s' => JS.isDigit c && test p' s'
  | PLit a :: p', String c s' => (if ascii_dec a c then true else false) && test p' s'
  | _, _ => false
  end.

(** [\d{n}] *)
Definition digits (n : nat) : list patItem := repeat PDigit n.

(** [/^\d{4}-\d{2}-\d{2}$/], [/^\d{2}\/\d{2}\/\d{4}$/],
    [/^\d{2}-\d{2}-\d{4}$/] and [/^\d{4}\/\d{2}\/\d{2}$/]. *)
Definition datePatterns : list (list patItem) :=
  [ digits 4 ++ [PLit "-"] ++ digits 2 ++ [PLit "-"] ++ digits 2;
    digits 2 ++ [PLit "/"] ++ digits 2 ++ [PLit "/"] ++ digits 4;
    digits 2 ++ [PLit "-"] ++ digits 2 ++ [PLit "-"] ++ digits 4;
    digits 4 ++ [PLit "/"] ++ digits 2 ++ [PLit "/"] ++ digits 2 ]%char.

Definition detectDataType (value : val) : dataType :=
  if isNullish value || isEmptyString value then TText
  else match value with
  | VDate _ => TDate
  | VNum _ => TNumber
  | _ =>
      let dateStr := JS.trim (ToString value) in
      if existsb (fun pattern => test pattern dateStr) datePatterns
         && isValidDate (Date_new (VStr dateStr))
      then TDate
      else if negb (isNaN value) && negb (JS.isNaN_num (parseFloat value))
              && isFinite value
      then TNumber
      else TText
  end.

Record typeCounts := { text : nat; number : nat; date : nat }.

(** [typeCounts[type]++] *)
Definition increment (counts : typeCounts) (type : dataType) : typeCounts :=
  match type with
  | TText => {| text := S (text counts); number := number counts; date := date counts |}
  | TNumber => {| text := text counts; number := S (number counts); date := date counts |}
  | TDate => {| text := text counts; number := number counts; date := S (date counts) |}
  end.

(** The non-empty values of one column among the first [sampleSize]
    rows. *)
Definition sampleValues (data : list row) (sampleSize : Z) (header : string)
  : list val :=
  List.filter (fun val => negb (isNullish val) && negb (isEmptyString val))
              (map (fun r => get r header) (slice data 0 sampleSize)).

Definition columnType (data : list row) (sampleSize : Z) (header : string)
  : dataType :=
  match sampleValues data sampleSize header with
  | [] => TText
  | sample =>
      let counts :=
        foldl (fun counts val => increment counts (detectDataType val))
              {| text := 0; number := 0; date := 0 |} sample in
      if (date counts <=? number counts)%nat && (text counts <=? number counts)%nat
      then TNumber
      else if (text counts <=? date counts)%nat then TDate else TText
  end.

Record parsed := {
  headers : list string;
  data : list row;
  columnTypes : gmap string dataType;
  totalRows : Z
}.

(** [Math.min(100, Math.floor(data.length / 10))]; the quotient of an
    array length by ten is exact in the integers. *)
Definition sampleSize (data : list row) : Z :=
  Z.min 100 (Z.of_nat (length data) / 10).

(** [parseExcel], from the rows that [XLSX.utils.sheet_to_json] returns
    for the first sheet; an [Error] is thrown for an empty sheet. *)
Definition parseExcel (sheet : list row) : string + parsed :=
  match sheet with
  | [] => inl "Excel file is empty"
  | first :: _ =>
      let headers := keys first in
      let columnTypes :=
        foldl (fun types header =>
                 <[header := columnType sheet (sampleSize sheet) header]> types)
              ∅ headers in
      inr {| headers := headers; data := sheet; columnTypes := columnTypes;
             totalRows := Z.of_nat (length sheet) |}
  end.

End Upload.
End Upload.

(** ** Filter conditions *)

(** A filter as the client sends it; [value] and [value2] are any
    JavaScript value ([undefined] when left out). *)
Record filter := {
  column : string;
  condition : string;
  value : val;
  value2 : val
}.

Section Filters.
Context `{DateHost}.

(** The text of a cell:
    [cellValue !== null && cellValue !== undefined ? String(cellValue) : ''] *)
Definition cellValueStr (cellValue : val) : string :=
  if negb (isNullish cellValue) then ToString cellValue else "".

(** [evaluateFilter(row, filter)]: the [switch] on the condition name,
    case by case. *)
Definition evaluateFilter (r : row) (f : filter) : bool :=
  let cellValue := get r (column f) in
  let cellValueStr := cellValueStr cellValue in
  let condition := condition f in
  let value := value f in
  let value2 := value2 f in
  (* Numeric conditions *)
  if String.eqb condition "equals" then
    let num1 := parseFloat cellValue in
    let num2 := parseFloat value in
    negb (JS.isNaN_num num1) && negb (JS.isNaN_num num2) && JS.num_eq num1 num2
  else if String.eqb condition "notEquals" then
    let num1 := parseFloat cellValue in
    let num2 := parseFloat value in
    JS.isNaN_num num1 || JS.isNaN_num num2 || negb (JS.num_eq num1 num2)
  else if String.eqb condition "greaterThan" then
    let num1 := parseFloat cellValue in
    let num2 := parseFloat value in
    negb (JS.isNaN_num num1) && negb (JS.isNaN_num num2) && JS.num_gt num1 num2
  else if String.eqb condition "lessThan" then
    let num1 := parseFloat cellValue in
    let num2 := parseFloat value in
    negb (JS.isNaN_num num1) && negb (JS.isNaN_num num2) && JS.num_lt num1 num2
  else if String.eqb condition "greaterThanOrEqual" then
    let num1 := parseFloat cellValue in
    let num2 := parseFloat value in
    negb (JS.isNaN_num num1) && negb (JS.isNaN_num num2) && JS.num_ge num1 num2
  else if String.eqb condition "lessThanOrEqual" then
    let num1 := parseFloat cellValue in
    let num2 := parseFloat value in
    negb (JS.isNaN_num num1) && negb (JS.isNaN_num num2) && JS.num_le num1 num2
  else if String.eqb condition "between" then
    let num := parseFloat cellValue in
    let num1 := parseFloat value in
    let num2 := parseFloat value2 in
    negb (JS.isNaN_num num) && negb (JS.isNaN_num num1) && negb (JS.isNaN_num num2)
    && JS.num_ge num num1 && JS.num_le num num2
  (* Text conditions *)
  else if String.eqb condition "contains" then
    JS.includes (JS.toLowerCase cellValueStr) (JS.toLowerCase (ToString value))
  else if String.eqb condition "doesNotContain" then
    negb (JS.includes (JS.toLowerCase cellValueStr) (JS.toLowerCase (ToString value)))
  else if String.eqb condition "startsWith" then
    JS.startsWith (JS.toLowerCase cellValueStr) (JS.toLowerCase (ToString value))
  else if String.eqb condition "endsWith" then
    JS.endsWith (JS.toLowerCase cellValueStr) (JS.toLowerCase (ToString value))
  else if String.eqb condition "exactMatch" then
    String.eqb cellValueStr (ToString value)
  (* Date conditions *)
  else if String.eqb condition "before" then
    let cellDate := Date_new cellValue in
    let filterDate := Date_new value in
    isValidDate cellDate && isValidDate filterDate && date_lt cellDate filterDate
  else if String.eqb condition "after" then
    let cellDate := Date_new cellValue in
    let filterDate := Date_new value in
    isValidDate cellDate && isValidDate filterDate && date_lt filterDate cellDate
  else if String.eqb condition "on" then
    let cellDate := Date_new cellValue in
    let filterDate := Date_new value in
    isValidDate cellDate && isValidDate filterDate
    && String.eqb (toDateString cellDate) (toDateString filterDate)
  else if String.eqb condition "betweenDates" then
    let dateValue := Date_new cellValue in
    let date1 := Date_new value in
    let date2 := Date_new value2 in
    isValidDate dateValue && isValidDate date1 && isValidDate date2
    && date_le date1 dateValue && date_le dateValue date2
  (* Empty checks *)
  else if String.eqb condition "isEmpty" then
    isNullish cellValue || isEmptyString cellValue
    || String.eqb (JS.trim cellValueStr) ""
  else if String.eqb condition "isNotEmpty" then
    negb (isNullish cellValue) && negb (isEmptyString cellValue)
    && negb (String.eqb (JS.trim cellValueStr) "")
  else true.

(** [applyFiltersWithLogic(data, filters, logicOperator = 'AND')];
    [filters] is [None] when the caller passes nothing. *)
Definition applyFiltersWithLogic (data : list row) (filters : option (list filter))
    (logicOperator : option string) : list row :=
  let logicOperator := default "AND" logicOperator in
  match filters with
  | None | Some [] => data
  | Some filters =>
      if String.eqb logicOperator "OR" then
        List.filter (fun r => existsb (fun f => evaluateFilter r f) filters) data
      else
        List.filter (fun r => forallb (fun f => evaluateFilter r f) filters) data
  end.

(** The callback that [applyFilters] gives to [filters.every]: its own
    copy of the [switch]. *)
Definition applyFilters_every (r : row) (f : filter) : bool :=
  let cellValue := get r (column f) in
  let cellValueStr := cellValueStr cellValue in
  let condition := condition f in
  let value := value f in
  let value2 := value2 f in
  if String.eqb condition "equals" then
    let num1 := parseFloat cellValue in
    let num2 := parseFloat value in
    negb (JS.isNaN_num num1) && negb (JS.isNaN_num num2) && JS.num_eq num1 num2
  else if String.eqb condition "notEquals" then
    let num1 := parseFloat cellValue in
    let num2 := parseFloat value in
    JS.isNaN_num num1 || JS.isNaN_num num2 || negb (JS.num_eq num1 num2)
  else if String.eqb condition "greaterThan" then
    let num1 := parseFloat cellValue in
    let num2 := parseFloat value in
    negb (JS.isNaN_num num1) && negb (JS.isNaN_num num2) && JS.num_gt num1 num2
  else if String.eqb condition "lessThan" then
    let num1 := parseFloat cellValue in
    let num2 := parseFloat value in
    negb (JS.isNaN_num num1) && negb (JS.isNaN_num num2) && JS.num_lt num1 num2
  else if String.eqb condition "greaterThanOrEqual" then
    let num1 := parseFloat cellValue in
    let num2 := parseFloat value in
    negb (JS.isNaN_num num1) && negb (JS.isNaN_num num2) && JS.num_ge num1 num2
  else if String.eqb condition "lessThanOrEqual" then
    let num1 := parseFloat cellValue in
    let num2 := parseFloat value in
    negb (JS.isNaN_num num1) && negb (JS.isNaN_num num2) && JS.num_le num1 num2
  else if String.eqb condition "between" then
    let num := parseFloat cellValue in
    let num1 := parseFloat value in
    let num2 := parseFloat value2 in
    negb (JS.isNaN_num num) && negb (JS.isNaN_num num1) && negb (JS.isNaN_num num2)
    && JS.num_ge num num1 && JS.num_le num num2
  else if String.eqb condition "contains" then
    JS.includes (JS.toLowerCase cellValueStr) (JS.toLowerCase (ToString value))
  else if String.eqb condition "doesNotContain" then
    negb (JS.includes (JS.toLowerCase cellValueStr) (JS.toLowerCase (ToString value)))
  else if String.eqb condition "startsWith" then
    JS.startsWith (JS.toLowerCase cellValueStr) (JS.toLowerCase (ToString value))
  else if String.eqb condition "endsWith" then
    JS.endsWith (JS.toLowerCase cellValueStr) (JS.toLowerCase (ToString value))
  else if String.eqb condition "exactMatch" then
    String.eqb cellValueStr (ToString value)
  else if String.eqb condition "before" then
    let cellDate := Date_new cellValue in
    let filterDate := Date_new value in
    isValidDate cellDate && isValidDate filterDate && date_lt cellDate filterDate
  else if String.eqb condition "after" then
    let cellDate := Date_new cellValue in
    let filterDate := Date_new value in
    isValidDate cellDate && isValidDate filterDate && date_lt filterDate cellDate
  else if String.eqb condition "on" then
    let cellDate := Date_new cellValue in
    let filterDate := Date_new value in
    isValidDate cellDate && isValidDate filterDate
    && String.eqb (toDateString cellDate) (toDateString filterDate)
  else if String.eqb condition "betweenDates" then
    let dateValue := Date_new cellValue in
    let date1 := Date_new value in
    let date2 := Date_new value2 in
    isValidDate dateValue && isValidDate date1 && isValidDate date2
    && date_le date1 dateValue && date_le dateValue date2
  else if String.eqb condition "isEmpty" then
    isNullish cellValue || isEmptyString cellValue
    || String.eqb (JS.trim cellValueStr) ""
  else if String.eqb condition "isNotEmpty" then
    negb (isNullish cellValue) && negb (isEmptyString cellValue)
    && negb (String.eqb (JS.trim cellValueStr) "")
  else true.

(** [applyFilters(data, filters)] *)
Definition applyFilters (data : list row) (filters : option (list filter))
  : list row :=
  match filters with
  | None | Some [] => data
  | Some filters =>
      List.filter (fun r => forallb (fun f => applyFilters_every r f) filters) data
  end.

End Filters.

(** ** POST /api/filter *)
Module FilterRoute.
Section FilterRoute.
Context `{DateHost}.

(** The request body; [data] is [None] when it is missing or not an
    array, [page] and [pageSize] are [None] when undefined. *)
Record request := {
  data : option (list row);
  filters : option (list filter);
  page : option Z;
  pageSize : option Z
}.

Record response := {
  res_data : list row;
  totalRows : Z;
  originalRows : Z;
  paging : option pageInfo
}.

Definition handler (body : request) : reply response :=
  match data body with
  | None => Err 400 "Invalid data provided"
  | Some data =>
      let filteredData := applyFilters data (filters body) in
      let totalRows := Z.of_nat (length filteredData) in
      let originalRows := Z.of_nat (length data) in
      match page body, pageSize body with
      | Some page, Some pageSize =>
          let (paginatedData, info) := paginate filteredData page pageSize in
          Ok {| res_data := paginatedData; totalRows := totalRows;
                originalRows := originalRows; paging := Some info |}
      | _, _ =>
          Ok {| res_data := filteredData; totalRows := totalRows;
                originalRows := originalRows; paging := None |}
      end
  end.

End FilterRoute.
End FilterRoute.

(** ** POST /api/reference-filter *)
Module ReferenceRoute.
Section ReferenceRoute.
Context `{DateHost}.

Record keyColumn := { refColumn : string; primaryColumn : string }.

(** The request body; an array field is [None] when it is missing or not
    an array, the other fields are [None] when undefined. *)
Record request := {
  referenceData : option (list row);
  primaryData : option (list row);
  keyColumns : option (list keyColumn);
  filterConditions : option (list filter);
  joinType : option string;
  logicOperator : option string;
  page : option Z;
  pageSize : option Z
}.

Record response := {
  data : list row;
  headers : list string;
  totalRows : Z;
  originalPrimaryRows : Z;
  filteredRefRows : Z;
  matchedRows : Z;
  paging : option pageInfo
}.

Definition quote : string := String (ascii_of_nat 34) EmptyString.

(** The loop over [keyColumns] that checks every key column against the
    two headers; the message of the first failure. *)
Fixpoint checkKeyColumns (refHeaders primaryHeaders : list string)
    (keyColumns : list keyColumn) : option string :=
  match keyColumns with
  | [] => None
  | keyCol :: rest =>
      if negb (includes refHeaders (refColumn keyCol)) then
        Some ("Reference column " +:+ quote +:+ refColumn keyCol +:+ quote +:+ " not found")
      else if negb (includes primaryHeaders (primaryColumn keyCol)) then
        Some ("Primary column " +:+ quote +:+ primaryColumn keyCol +:+ quote +:+ " not found")
      else checkKeyColumns refHeaders primaryHeaders rest
  end.

(** One component of a composite key. *)
Definition keyPart (value : val) : string :=
  if negb (isNullish value) then JS.trim (JS.toLowerCase (ToString value)) else "".

(** The composite key of a reference row and of a primary row. *)
Definition refKey (keyColumns : list keyColumn) (refRow : row) : string :=
  JS.join "|||" (map (fun kc => keyPart (get refRow (refColumn kc))) keyColumns).

Definition primaryKey (keyColumns : list keyColumn) (primaryRow : row) : string :=
  JS.join "|||" (map (fun kc => keyPart (get primaryRow (primaryColumn kc))) keyColumns).

(** Step 2: the lookup map from the filtered reference rows. *)
Definition addToMap (keyColumns : list keyColumn)
    (referenceMap : gmap string (list row)) (refRow : row) : gmap string (list row) :=
  let compositeKey := refKey keyColumns refRow in
  let referenceMap :=
    match referenceMap !! compositeKey with
    | Some _ => referenceMap
    | None => <[compositeKey := []]> referenceMap
    end in
  alter (fun bucket => bucket ++ [refRow]) compositeKey referenceMap.

Definition buildReferenceMap (keyColumns : list keyColumn)
    (filteredReferenceData : list row) : gmap string (list row) :=
  foldl (addToMap keyColumns) ∅ filteredReferenceData.

(** The merged row of a match: a copy of the primary row, then every
    reference column under its prefixed name. *)
Definition mergeMatch (refHeaders primaryHeaders : list string)
    (primaryRow refRow : row) : row :=
  foldl (fun mergedRow header =>
           if includes primaryHeaders header
           then set mergedRow ("ref_" +:+ header) (get refRow header)
           else set mergedRow ("ref_" +:+ header) (get refRow header))
        primaryRow refHeaders.

(** The row kept by a left join for an unmatched primary row. *)
Definition mergeUnmatched (refHeaders primaryHeaders : list string)
    (primaryRow : row) : row :=
  foldl (fun mergedRow header =>
           if negb (includes primaryHeaders header)
           then set mergedRow ("ref_" +:+ header) VNull
           else set mergedRow ("ref_" +:+ header) VNull)
        primaryRow refHeaders.

(** Step 3, one primary row: the loop state is [joinedData] and
    [matchedPrimaryKeys]. *)
Definition joinStep (referenceMap : gmap string (list row))
    (refHeaders primaryHeaders : list string) (keyColumns : list keyColumn)
    (joinType : string) (state : list row * gset string) (primaryRow : row)
  : list row * gset string :=
  let (joinedData, matchedPrimaryKeys) := state in
  let compositeKey := primaryKey keyColumns primaryRow in
  match referenceMap !! compositeKey with
  | Some ((_ :: _) as matchingRefRows) =>
      (joinedData ++ map (mergeMatch refHeaders primaryHeaders primaryRow) matchingRefRows,
       {[compositeKey]} ∪ matchedPrimaryKeys)
  | _ =>
      if String.eqb joinType "left" then
        (joinedData ++ [mergeUnmatched refHeaders primaryHeaders primaryRow],
         matchedPrimaryKeys)
      else state
  end.

Definition joinRows (referenceMap : gmap string (list row))
    (refHeaders primaryHeaders : list string) (keyColumns : list keyColumn)
    (joinType : string) (primaryData : list row) : list row * gset string :=
  foldl (joinStep referenceMap refHeaders primaryHeaders keyColumns joinType)
        ([], ∅) primaryData.

(** Step 1: the reference rows that pass the filter conditions. *)
Definition filterReference (referenceData : list row)
    (filterConditions : option (list filter)) (logicOperator : string) : list row :=
  match filterConditions with
  | Some (_ :: _) =>
      applyFiltersWithLogic referenceData filterConditions (Some logicOperator)
  | _ => referenceData
  end.

(** [allHeaders] *)
Definition allHeaders (primaryHeaders refHeaders : list string) : list string :=
  primaryHeaders ++ map (fun header => "ref_" +:+ header) refHeaders.

(** What the validation block hands on: the two arrays, the key
    columns, and the two headers [refHeaders] and [primaryHeaders]. *)
Record validated := {
  v_referenceData : list row;
  v_primaryData : list row;
  v_keyColumns : list keyColumn;
  refHeaders : list string;
  primaryHeaders : list string
}.

(** The validation block: every early [return res.status(400)]. *)
Definition validate (body : request) : reply validated :=
  match referenceData body with
  | None | Some [] =>
      Err 400 "Reference data must be provided as a non-empty array"
  | Some ((refFirst :: _) as referenceData) =>
  match primaryData body with
  | None | Some [] =>
      Err 400 "Primary data must be provided as a non-empty array"
  | Some ((primaryFirst :: _) as primaryData) =>
  match keyColumns body with
  | None | Some [] =>
      Err 400 "At least one key column must be specified"
  | Some keyColumns =>
      let refHeaders := keys refFirst in
      let primaryHeaders := keys primaryFirst in
      match checkKeyColumns refHeaders primaryHeaders keyColumns with
      | Some error => Err 400 error
      | None =>
          Ok {| v_referenceData := referenceData; v_primaryData := primaryData;
                v_keyColumns := keyColumns; refHeaders := refHeaders;
                primaryHeaders := primaryHeaders |}
      end
  end end end.

(** Steps 1 to 3 and the response, once the request is valid. *)
Definition respond (input : validated) (filterConditions : option (list filter))
    (joinType logicOperator : string) (page pageSize : option Z) : response :=
  let referenceData := v_referenceData input in
  let primaryData := v_primaryData input in
  let keyColumns := v_keyColumns input in
  let refHeaders := refHeaders input in
  let primaryHeaders := primaryHeaders input in
  let filteredReferenceData :=
    filterReference referenceData filterConditions logicOperator in
  let referenceMap := buildReferenceMap keyColumns filteredReferenceData in
  let (joinedData, matchedPrimaryKeys) :=
    joinRows referenceMap refHeaders primaryHeaders keyColumns joinType primaryData in
  let totalRows := Z.of_nat (length joinedData) in
  let originalPrimaryRows := Z.of_nat (length primaryData) in
  let filteredRefRows := Z.of_nat (length filteredReferenceData) in
  let allHeaders := allHeaders primaryHeaders refHeaders in
  match page, pageSize with
  | Some page, Some pageSize =>
      let (paginatedData, info) := paginate joinedData page pageSize in
      {| data := paginatedData; headers := allHeaders;
         totalRows := totalRows;
         originalPrimaryRows := originalPrimaryRows;
         filteredRefRows := filteredRefRows;
         matchedRows := Z.of_nat (size matchedPrimaryKeys);
         paging := Some info |}
  | _, _ =>
      {| data := joinedData; headers := allHeaders;
         totalRows := totalRows;
         originalPrimaryRows := originalPrimaryRows;
         filteredRefRows := filteredRefRows;
         matchedRows := Z.of_nat (size matchedPrimaryKeys);
         paging := None |}
  end.

(** The route: [joinType] defaults to ['inner'], [logicOperator] to
    ['AND']. *)
Definition handler (body : request) : reply response :=
  let joinType := default "inner" (joinType body) in
  let logicOperator := default "AND" (logicOperator body) in
  match validate body with
  | Err status error => Err status error
  | Ok input =>
      Ok (respond input (filterConditions body) joinType logicOperator
                  (page body) (pageSize body))
  end.

End ReferenceRoute.
End ReferenceRoute.

(** ** A host for the examples

    A host in the UTC time zone, enough to run the functions on concrete
    inputs: [Date.parse] reads the calendar-date form [YYYY-MM-DD] (UTC
    midnight, as the standard has it) and nothing else. *)
Module ExampleHost.

(** Days from 1970-01-01 to the civil date [y-m-d]. *)
Definition daysFromCivil (y m d : Z) : Z :=
  let y := if m <=? 2 then y - 1 else y in
  let era := y / 400 in
  let yoe := y - era * 400 in
  let doy := (153 * (if 2 <? m then m - 3 else m + 9) + 2) / 5 + d - 1 in
  let doe := yoe * 365 + yoe / 4 - yoe / 100 + doy in
  era * 146097 + doe - 719468.

(** The civil date (year, month, day) of a day number. *)
Definition civilFromDays (days : Z) : Z * Z * Z :=
  let z := days + 719468 in
  let era := z / 146097 in
  let doe := z - era * 146097 in
  let yoe := (doe - doe / 1460 + doe / 36524 - doe / 146096) / 365 in
  let doy := doe - (365 * yoe + yoe / 4 - yoe / 100) in
  let mp := (5 * doy + 2) / 153 in
  let d := doy - (153 * mp + 2) / 5 + 1 in
  let m := if mp <? 10 then mp + 3 else mp - 9 in
  (yoe + era * 400 + (if m <=? 2 then 1 else 0), m, d).

Definition parseIsoDate (s : string) : option Z :=
  match JS.scanDigits s 0 0 with
  | (y, 4, String "-"%char s1) =>
      match JS.scanDigits s1 0 0 with
      | (m, 2, String "-"%char s2) =>
          match JS.scanDigits s2 0 0 with
          | (d, 2, EmptyString) =>
              if (1 <=? m) && (m <=? 12) && (1 <=? d) && (d <=? 31)
              then Some (daysFromCivil y m d * 86400000) else None
          | _ => None
          end
      | _ => None
      end
  | _ => None
  end.

(** A non-negative integer on at least [width] digits. *)
Definition padded (width : nat) (n : Z) : string :=
  let text := JS.decimalDigits n in
  JS.zeros (width - String.length text) +:+ text.

Definition dayNames : list string := ["Sun"; "Mon"; "Tue"; "Wed"; "Thu"; "Fri"; "Sat"].
Definition monthNames : list string :=
  ["Jan"; "Feb"; "Mar"; "Apr"; "May"; "Jun"; "Jul"; "Aug"; "Sep"; "Oct"; "Nov"; "Dec"].

(** [d.toDateString()], as in [Thu Jan 01 1970]. *)
Definition dateText (t : Z) : string :=
  let days := t / 86400000 in
  let '(y, m, d) := civilFromDays days in
  nth (Z.to_nat ((days + 4) mod 7)) dayNames "" +:+ " "
  +:+ nth (Z.to_nat (m - 1)) monthNames "" +:+ " "
  +:+ padded 2 d +:+ " "
  +:+ (if y <? 0 then "-" +:+ padded 6 (- y) else padded 4 y).

(** [String(d)] *)
Definition dateTimeText (t : Z) : string :=
  let ms := t mod 86400000 in
  dateText t +:+ " " +:+ padded 2 (ms / 3600000) +:+ ":"
  +:+ padded 2 (ms / 60000 mod 60) +:+ ":" +:+ padded 2 (ms / 1000 mod 60)
  +:+ " GMT+0000 (Coordinated Universal Time)".

Definition host : DateHost := {|
  Date_parse := parseIsoDate;
  Date_toString := dateTimeText;
  Date_toDateString := dateText
|}.

End ExampleHost.

(** ** Vocabulary of the properties *)

Import ReferenceRoute.

(** The prefixed name of a reference column. *)
Definition prefixed (header : string) : string := "ref_" +:+ header.

(** The condition names of the numeric family. *)
Definition numericFamily : list string :=
  ["equals"; "notEquals"; "greaterThan"; "lessThan"; "greaterThanOrEqual";
   "lessThanOrEqual"; "between"].


(** What can be wrong with the two sets and the key columns of a join
    request, with the error text for it. *)
Inductive defect (body : request) : string → Prop :=
  | NoReferenceRows :
      referenceData body = None ∨ referenceData body = Some [] →
      defect body "Reference data must be provided as a non-empty array"
  | NoPrimaryRows :
      primaryData body = None ∨ primaryData body = Some [] →
      defect body "Primary data must be provided as a non-empty array"
  | NoReferenceColumn refFirst refRest primaryFirst primaryRest keyCols keyCol :
      referenceData body = Some (refFirst :: refRest) →
      primaryData body = Some (primaryFirst :: primaryRest) →
      keyColumns body = Some keyCols →
      keyCol ∈ keyCols →
      refColumn keyCol ∉ keys refFirst →
      defect body ("Reference column " +:+ quote +:+ refColumn keyCol +:+ quote
                   +:+ " not found")
  | NoPrimaryColumn refFirst refRest primaryFirst primaryRest keyCols keyCol :
      referenceData body = Some (refFirst :: refRest) →
      primaryData body = Some (primaryFirst :: primaryRest) →
      keyColumns body = Some keyCols →
      keyCol ∈ keyCols →
      primaryColumn keyCol ∉ keys primaryFirst →
      defect body ("Primary column " +:+ quote +:+ primaryColumn keyCol +:+ quote
                   +:+ " not found").

Section Vocabulary.
Context `{DateHost}.

(** An operand that [parseFloat] turns into NaN: the cell, the comparison
    value, or for [between] the upper bound. *)
Definition unparsed (r : row) (f : filter) : bool :=
  JS.isNaN_num (parseFloat (get r (column f)))
  || JS.isNaN_num (parseFloat (value f))
  || (String.eqb (condition f) "between" && JS.isNaN_num (parseFloat (value2 f))).

(** The reference rows with the composite key [k]. *)
Definition withKey (keyColumns : list keyColumn) (k : string) (rows : list row)
  : list row :=
  List.filter (fun refRow => String.eqb (refKey keyColumns refRow) k) rows.

(** The reference rows whose composite key is that of a primary row. *)
Definition matchesOf (keyColumns : list keyColumn) (filteredReferenceData : list row)
    (primaryRow : row) : list row :=
  withKey keyColumns (primaryKey keyColumns primaryRow) filteredReferenceData.

(** The rows that one primary row contributes to the join. *)
Definition joinedFor (refHeaders primaryHeaders : list string)
    (keyColumns : list keyColumn) (joinType : string)
    (filteredReferenceData : list row) (primaryRow : row) : list row :=
  match matchesOf keyColumns filteredReferenceData primaryRow with
  | [] =>
      if String.eqb joinType "left"
      then [mergeUnmatched refHeaders primaryHeaders primaryRow] else []
  | matching => map (mergeMatch refHeaders primaryHeaders primaryRow) matching
  end.

End Vocabulary.

(** ** Example inputs *)
Module Examples.

Definition idKey : keyColumn := {| refColumn := "id"; primaryColumn := "id" |}.

Definition joinRequest (reference primary : list row) (keys : list keyColumn)
    (joinType : option string) : request :=
  {| referenceData := Some reference; primaryData := Some primary;
     keyColumns := Some keys; filterConditions := None;
     joinType := joinType; logicOperator := None;
     page := None; pageSize := None |}.

(** One reference row, a primary row that meets it and one that does
    not. *)
Definition regions : list row := [[("id", VStr "A1"); ("region", VStr "East")]].
Definition people : list row :=
  [[("id", VStr "a1"); ("name", VStr "Bob")]; [("id", VStr "B2"); ("name", VStr "Sue")]].

(** Two reference rows with the same key, up to case. *)
Definition twoRegions : list row :=
  [[("id", VStr "A1"); ("region", VStr "East")];
   [("id", VStr "a1"); ("region", VStr "West")]].
Definition bob : list row := [[("id", VStr "a1"); ("name", VStr "Bob")]].

(** A primary row with a column that already carries the prefix. *)
Definition tagged : list row := [[("id", VStr "a1"); ("ref_id", VStr "kept?")]].

(** A column holding 1, 2, "3" and "". *)
Definition sheet : list row :=
  [[("c", VNum (JS.of_Z 1))]; [("c", VNum (JS.of_Z 2))];
   [("c", VStr "3")]; [("c", VStr "")]].

Definition condition_on (column condition : string) (value : val) : filter :=
  {| column := column; condition := condition; value := value; value2 := VUndefined |}.

End Examples.

(** ** Upload: the file filter and POST /api/upload *)
Module UploadRoute.

(** What the file filter reads of an uploaded file. *)
Record file := { mimetype : string; originalname : string }.

Definition allowedMimes : list string :=
  ["application/vnd.ms-excel";
   "application/vnd.openxmlformats-officedocument.spreadsheetml.sheet"].

(** [fileFilter]: [cb(null, true)], or [cb(new Error(message), false)]. *)
Definition fileFilter (f : file) : string + unit :=
  if includes allowedMimes (mimetype f)
     || JS.endsWith (originalname f) ".xls"
     || JS.endsWith (originalname f) ".xlsx"
  then inr tt
  else inl "Only Excel files (.xls, .xlsx) are allowed".

(** The [catch] block of the route, from [error.message]. *)
Definition failure {A} (message : string) : reply A :=
  if negb (String.eqb message "") && JS.includes message "heap" then
    Err 413 "File too large to process. Please split the file or reduce its size."
  else if negb (String.eqb message "") && JS.includes message "memory" then
    Err 413 "Insufficient memory to process file. Please use a smaller file."
  else
    Err 400 (if String.eqb message "" then "Failed to parse Excel file" else message).

(** The route.  [upload] is [None] when the request has no file; else it
    is what reading the first sheet of the workbook gave: its rows, or
    the message of the error the reader threw. *)
Definition handler `{DateHost} (upload : option (string + list row))
  : reply Upload.parsed :=
  match upload with
  | None => Err 400 "No file uploaded"
  | Some (inl message) => failure message
  | Some (inr sheet) =>
      match Upload.parseExcel sheet with
      | inr parsed => Ok parsed
      | inl message => failure message
      end
  end.

End UploadRoute.

(** ** POST /api/export/excel *)
Module ExcelExport.
Section ExcelExport.
Context `{DateHost}.

(** The request body; an array field is [None] when it is missing or not
    an array. *)
Record request := {
  data : option (list row);
  headers : option (list string);
  filename : option string
}.

(** The worksheet that is written: its rows of cell texts (the header
    row first), the column widths, the count of rows processed, and the
    [Content-Disposition] header. *)
Record workbook := {
  rows : list (list string);
  widths : list Z;
  processedRows : Z;
  disposition : string
}.

(** One cell: [''] for [null] and [undefined], else the text, cut at the
    cell limit of 32767 characters. *)
Definition cellText (value : val) : string :=
  if isNullish value then ""
  else
    let strValue := ToString value in
    if 32767 <? JS.strlen strValue then JS.takeChars (Z.to_nat 32767) strValue
    else strValue.

Definition rowData (headers : list string) (r : row) : list string :=
  map (fun header => cellText (get r header)) headers.

Definition BATCH_SIZE (rowCount : Z) : Z :=
  if 1000000 <? rowCount then 5000 else 1000.

(** The [for (let i = 0; i < data.length; i += BATCH_SIZE)] loop from
    index [i] on; the state is the worksheet rows and [processedRows]. *)
Fixpoint addBatches (fuel : nat) (data : list row) (headers : list string)
    (batchSize i : Z) (state : list (list string) * Z) : list (list string) * Z :=
  match fuel with
  | O => state
  | S fuel' =>
      if i <? Z.of_nat (length data) then
        let batch := slice data i (i + batchSize) in
        addBatches fuel' data headers batchSize (i + batchSize)
          (fst state ++ map (rowData headers) batch,
           snd state + Z.of_nat (length batch))
      else state
  end.

(** [Math.min(30, Math.max(10, header.length + 2))] *)
Definition columnWidth (header : string) : Z :=
  Z.min 30 (Z.max 10 (JS.strlen header + 2)).

Definition attachment (filename : string) : string :=
  "attachment; filename=" +:+ quote +:+ filename +:+ quote.

(** [res.setHeader(name, value)] of Node: a value with a character other
    than the tab, 0x20 to 0x7e and 0x80 to 0xff is refused, and an error
    with this message is thrown (the characters above 0xff, refused as
    well, are outside the strings of this development). *)
Definition validHeaderChar (c : ascii) : bool :=
  (JS.code c =? 9) || ((32 <=? JS.code c) && (JS.code c <=? 126))
  || ((128 <=? JS.code c) && (JS.code c <=? 255)).

Fixpoint validHeaderValue (value : string) : bool :=
  match value with
  | EmptyString => true
  | String c value' => validHeaderChar c && validHeaderValue value'
  end.

Definition invalidHeader (name : string) : string :=
  "Invalid character in header content [" +:+ quote +:+ name +:+ quote +:+ "]".

(** The [catch] block of the route, from [error.message]. *)
Definition failure {A} (message : string) : reply A :=
  if negb (String.eqb message "")
     && (JS.includes message "heap" || JS.includes message "memory") then
    Err 413 "Dataset too large to export. Please filter the data or export in smaller batches."
  else
    Err 500 (if String.eqb message "" then "Failed to export Excel file" else message).

(** The route, up to the point where the workbook is handed to the
    writer; the loop runs at most once per row.  The header
    [Content-Disposition] is set after the rows are added, inside the
    [try]. *)
Definition handler (body : request) : reply workbook :=
  match data body, headers body with
  | Some data, Some headers =>
      let filename := default "filtered_data.xlsx" (filename body) in
      let rowCount := Z.of_nat (length data) in
      let (rows, processedRows) :=
        addBatches (length data) data headers (BATCH_SIZE rowCount) 0 ([headers], 0) in
      if validHeaderValue (attachment filename) then
        Ok {| rows := rows; widths := map columnWidth headers;
              processedRows := processedRows;
              disposition := attachment filename |}
      else failure (invalidHeader "Content-Disposition")
  | _, _ => Err 400 "Invalid data provided"
  end.

End ExcelExport.
End ExcelExport.

(** ** POST /api/export/pdf *)
Module PdfExport.
Section PdfExport.
Context `{DateHost}.

Record request := {
  data : option (list row);
  headers : option (list string);
  filename : option string;
  maxRows : option Z
}.

(** The texts of the document in drawing order (where they are drawn is
    the layout of the PDF library, which is not modelled). *)
Record document := {
  title : string;
  metadata : string;
  headerCells : list string;
  bodyCells : list (list string);
  note : option string;
  disposition : string
}.

(** An integer in a template literal. *)
Definition integerText (z : Z) : string :=
  if z <? 0 then "-" +:+ JS.decimalDigits (- z) else JS.decimalDigits z.

(** One body cell: the first 20 characters of the text, [''] for [null]
    and [undefined]. *)
Definition cellValue (r : row) (header : string) : string :=
  if negb (isNullish (get r header))
  then JS.takeChars 20 (ToString (get r header)) else "".

(** The [catch] block of the route, from [error.message]. *)
Definition failure {A} (message : string) : reply A :=
  if negb (String.eqb message "")
     && (JS.includes message "heap" || JS.includes message "memory") then
    Err 413 "Dataset too large to export as PDF. Please reduce the number of rows or use Excel export."
  else
    Err 500 (if String.eqb message "" then "Failed to export PDF file" else message).

(** The route; the header [Content-Disposition] is set inside the
    [try], before anything is drawn. *)
Definition handler (body : request) : reply document :=
  match data body, headers body with
  | Some data, Some headers =>
      let filename := default "filtered_data.pdf" (filename body) in
      let maxRows := default 1000 (maxRows body) in
      let length := Z.of_nat (length data) in
      let rowsToExport := Z.min length maxRows in
      let exportData := slice data 0 rowsToExport in
      if ExcelExport.validHeaderValue (ExcelExport.attachment filename) then
        Ok {| title := "Filtered Data Report";
              metadata := "Total Rows: " +:+ integerText length +:+ " | Exported: "
                          +:+ integerText rowsToExport;
              headerCells := map (JS.takeChars 15) headers;
              bodyCells := map (fun r => map (cellValue r) headers) exportData;
              note := if rowsToExport <? length
                      then Some ("(Showing first " +:+ integerText rowsToExport +:+ " of "
                                 +:+ integerText length
                                 +:+ " rows. Use Excel export for full dataset.)")
                      else None;
              disposition := ExcelExport.attachment filename |}
      else failure (ExcelExport.invalidHeader "Content-Disposition")
  | _, _ => Err 400 "Invalid data provided"
  end.

End PdfExport.
End PdfExport.

(** ** The client: the components that build the requests *)
Module Client.

(** *** FileUpload *)

(** The name check of [handleFile]: the file goes to the server when this
    holds. *)
Definition sendsFile (name : string) : bool :=
  negb (negb (JS.endsWith name ".xls") && negb (JS.endsWith name ".xlsx")).

(** *** FilterBuilder *)

(** A filter in the builder's state. *)
Record uiFilter := {
  id : Z;
  column : string;
  condition : string;
  value : string;
  value2 : string
}.

(** The fields that the inputs of a filter update. *)
Inductive field := FColumn | FCondition | FValue | FValue2.

(** [FILTER_CONDITIONS[type]], the condition values in menu order. *)
Definition FILTER_CONDITIONS (type : dataType) : list string :=
  match type with
  | TNumber => ["equals"; "notEquals"; "greaterThan"; "lessThan";
                "greaterThanOrEqual"; "lessThanOrEqual"; "between"]
  | TText => ["contains"; "doesNotContain"; "startsWith"; "endsWith";
              "exactMatch"; "isEmpty"; "isNotEmpty"]
  | TDate => ["before"; "after"; "on"; "betweenDates"]
  end.

(** [{ ...f, [field]: value }] *)
Definition setField (f : uiFilter) (field : field) (v : string) : uiFilter :=
  match field with
  | FColumn => {| id := id f; column := v; condition := condition f;
                  value := value f; value2 := value2 f |}
  | FCondition => {| id := id f; column := column f; condition := v;
                     value := value f; value2 := value2 f |}
  | FValue => {| id := id f; column := column f; condition := condition f;
                 value := v; value2 := value2 f |}
  | FValue2 => {| id := id f; column := column f; condition := condition f;
                  value := value f; value2 := v |}
  end.

(** The list that [addFilter] stores; [now] is [Date.now()]. *)
Definition addFilter (headers : list string) (columnTypes : gmap string dataType)
    (localFilters : list uiFilter) (now : Z) : list uiFilter :=
  let newFilter :=
    {| id := now;
       column := default "" (head headers);
       condition :=
         match head headers with
         | Some first =>
             match columnTypes !! first with
             | Some type => default "equals" (head (FILTER_CONDITIONS type))
             | None => "equals"
             end
         | None =>
             match columnTypes !! "undefined" with
             | Some type => default "equals" (head (FILTER_CONDITIONS type))
             | None => "equals"
             end
         end;
       value := "";
       value2 := "" |} in
  localFilters ++ [newFilter].

(** The list that [removeFilter(id)] stores. *)
Definition removeFilter (localFilters : list uiFilter) (removed : Z) : list uiFilter :=
  List.filter (fun f => negb (id f =? removed)) localFilters.

(** The list that [updateFilter(id, field, value)] stores. *)
Definition updateFilter (localFilters : list uiFilter) (updated : Z) (field : field)
    (v : string) : list uiFilter :=
  map (fun f =>
         if id f =? updated then
           let newFilter := setField f field v in
           let newFilter :=
             match field with
             | FCondition => setField newFilter FValue2 ""
             | _ => newFilter
             end in
           let newFilter :=
             if String.eqb v "isEmpty" || String.eqb v "isNotEmpty"
             then setField newFilter FValue "" else newFilter in
           newFilter
         else f)
      localFilters.

Definition getConditionsForColumn (columnTypes : gmap string dataType)
    (column : string) : list string :=
  FILTER_CONDITIONS (default TText (columnTypes !! column)).

Definition needsSecondValue (condition : string) : bool :=
  String.eqb condition "between" || String.eqb condition "betweenDates".

Definition needsValue (condition : string) : bool :=
  negb (String.eqb condition "isEmpty") && negb (String.eqb condition "isNotEmpty").

(** A filter as it is sent: [({ id, ...rest }) => rest]. *)
Definition sent (f : uiFilter) : filter :=
  Build_filter (column f) (condition f) (VStr (value f)) (VStr (value2 f)).

(** *** ReferenceFileFilter *)

Definition keyColumnNames : list string :=
  ["id"; "code"; "key"; "name"; "number"; "no"; "ref"; "reference"].

(** The key column that [autoDetectKeyColumn] sets, if it sets one. *)
Definition autoDetectKeyColumn (refData mainData : Upload.parsed) : option keyColumn :=
  let commonHeaders :=
    List.filter (fun h => includes (Upload.headers mainData) h) (Upload.headers refData) in
  let detectedKey :=
    find (fun h => existsb (fun key => JS.includes (JS.toLowerCase h) key) keyColumnNames)
         commonHeaders in
  match detectedKey with
  | Some detectedKey =>
      if String.eqb detectedKey "" then None
      else Some {| refColumn := detectedKey; primaryColumn := detectedKey |}
  | None => None
  end.

(** The body that [handleApplyFilters] posts to /api/reference-filter. *)
Definition referenceFilterBody (referenceData mainData : Upload.parsed)
    (keyColumn : keyColumn) (filters : list uiFilter) : ReferenceRoute.request :=
  {| ReferenceRoute.referenceData := Some (Upload.data referenceData);
     ReferenceRoute.primaryData := Some (Upload.data mainData);
     ReferenceRoute.keyColumns := Some [keyColumn];
     ReferenceRoute.filterConditions :=
       match filters with [] => None | _ => Some (map sent filters) end;
     ReferenceRoute.joinType := Some "inner";
     ReferenceRoute.logicOperator := Some "AND";
     ReferenceRoute.page := None;
     ReferenceRoute.pageSize := None |}.

(** *** DataTable *)

(** [paginatedData] and [totalPages]. *)
Definition paginatedData {A} (sortedData : list A) (currentPage rowsPerPage : Z) : list A :=
  let startIndex := (currentPage - 1) * rowsPerPage in
  slice sortedData startIndex (startIndex + rowsPerPage).

Definition totalPages {A} (sortedData : list A) (rowsPerPage : Z) : option Z :=
  Math_ceil_div (Z.of_nat (length sortedData)) rowsPerPage.

End Client.

(** ** More vocabulary *)

(** The filter [f] with another condition name. *)
Definition withCondition (name : string) (f : filter) : filter :=
  {| column := column f; condition := name; value := value f; value2 := value2 f |}.

(** The case labels of the [switch] in [evaluateFilter]. *)
Definition knownConditions : list string :=
  numericFamily
  ++ ["contains"; "doesNotContain"; "startsWith"; "endsWith"; "exactMatch";
      "before"; "after"; "on"; "betweenDates"; "isEmpty"; "isNotEmpty"].

(** The text conditions that compare lower-cased texts. *)
Definition foldingConditions : list string :=
  ["contains"; "doesNotContain"; "startsWith"; "endsWith"].

(** A text made of white space only. *)
Fixpoint blank (s : string) : bool :=
  match s with
  | EmptyString => true
  | String c s' => JS.isWhiteSpace c && blank s'
  end.

Definition sameType (a b : dataType) : bool :=
  match a, b with
  | TText, TText | TNumber, TNumber | TDate, TDate => true
  | _, _ => false
  end.

(** A cell as the sheet reader gives it with [raw: false] and
    [defval: null]: a text or [null].  JSON carries such a cell, and the
    key it stands under, unchanged between the server and the client. *)
Definition sheetCell (v : val) : bool :=
  match v with
  | VStr _ | VNull => true
  | _ => false
  end.

Definition sheetRows (sheet : list row) : Prop :=
  Forall (Forall (fun cell => sheetCell cell.2 = true)) sheet.

(** The page numbers 1 to [t]. *)
Definition pageNumbers (t : nat) : list Z := map Z.of_nat (seq 1 t).

Section MoreVocabulary.
Context `{DateHost}.

(** What [applyFiltersWithLogic] asks of a row for a non-empty list of
    conditions. *)
Definition combined (filters : list filter) (logicOperator : option string)
    (r : row) : bool :=
  if String.eqb (default "AND" logicOperator) "OR"
  then existsb (fun f => evaluateFilter r f) filters
  else forallb (fun f => evaluateFilter r f) filters.

(** How many values of a sample are detected as type [t]. *)
Definition countType (t : dataType) (sample : list val) : nat :=
  length (List.filter (fun v => sameType (Upload.detectDataType v) t) sample).

(** The composite keys of the primary rows that meet a reference row. *)
Definition matchedKeys (keyColumns : list keyColumn)
    (filteredReferenceData primaryData : list row) : list string :=
  List.filter
    (fun k => match withKey keyColumns k filteredReferenceData with
              | [] => false
              | _ => true
              end)
    (map (primaryKey keyColumns) primaryData).

End MoreVocabulary.

(** * Properties *)

(** ** The built-ins on examples *)

Example parseFloat_string_examples :
  JS.parseFloat_string "150" = JS.of_Z 150
  ∧ JS.parseFloat_string "  -1.5e3 units" = JS.of_Z (-1500)
  ∧ JS.parseFloat_string "0.1" = S754_finite false 7205759403792794 (-56)
  ∧ JS.parseFloat_string ".5" = JS.parseFloat_string "0.5"
  ∧ JS.parseFloat_string "1e+" = JS.of_Z 1
  ∧ JS.parseFloat_string "1e400" = JS.Infinity false
  ∧ JS.parseFloat_string "-Infinity" = JS.Infinity true
  ∧ JS.parseFloat_string "abc" = JS.NaN
  ∧ JS.parseFloat_string "." = JS.NaN
  ∧ JS.parseFloat_string "" = JS.NaN.
Proof. repeat split; vm_compute; reflexivity. Qed.

Example StringToNumber_examples :
  JS.StringToNumber " 12 " = JS.of_Z 12
  ∧ JS.StringToNumber "" = S754_zero false
  ∧ JS.StringToNumber "0x1F" = JS.of_Z 31
  ∧ JS.StringToNumber "12px" = JS.NaN
  ∧ JS.StringToNumber "1e400" = JS.Infinity false.
Proof. repeat split; vm_compute; reflexivity. Qed.

Example Number_toString_examples :
  map JS.Number_toString
      [JS.of_Z 1; JS.of_Z (-42); JS.of_decimal false 1 (-1); JS.of_decimal false 123456 (-3);
       JS.of_Z (10 ^ 21); JS.of_decimal false 1 (-7); JS.of_decimal false 5 (-324);
       JS.of_Z 9007199254740993; JS.NaN; JS.Infinity true]
  = ["1"; "-42"; "0.1"; "123.456"; "1e+21"; "1e-7"; "5e-324";
     "9007199254740992"; "NaN"; "-Infinity"].
Proof. vm_compute. reflexivity. Qed.

Example string_method_examples :
  JS.trim (JS.toLowerCase "  ABC ") = "abc"
  ∧ JS.includes "filtered data" "red d" = true
  ∧ JS.includes "filtered data" "blue" = false
  ∧ JS.endsWith "report.xlsx" ".xlsx" = true
  ∧ JS.join "|||" ["a"; ""; "c"] = "a||||||c".
Proof. repeat split; vm_compute; reflexivity. Qed.

(** ** Lists and rows *)

Lemma foldl_ext {A B} (f g : A → B → A) (l : list B) (a : A) :
  (∀ a b, f a b = g a b) → foldl f a l = foldl g a l.
Proof.
  intros Hfg. revert a. induction l as [|b l IH]; intros a; simpl; [reflexivity|].
  now rewrite Hfg, IH.
Qed.

Lemma filter_filter {A} (f : A → bool) (l : list A) :
  List.filter f (List.filter f l) = List.filter f l.
Proof.
  induction l as [|x l IH]; simpl; [reflexivity|].
  destruct (f x) eqn:Hx; simpl; [rewrite Hx; f_equal|]; exact IH.
Qed.

Lemma get_set_eq (r : row) k v : get (set r k v) k = v.
Proof.
  induction r as [|[k' w] r IH]; simpl.
  - now rewrite String.eqb_refl.
  - destruct (String.eqb k' k) eqn:E; simpl; rewrite E; auto.
Qed.

Lemma get_set_ne (r : row) k k' v : k ≠ k' → get (set r k v) k' = get r k'.
Proof.
  intros Hne. induction r as [|[k0 w] r IH]; simpl.
  - destruct (String.eqb k k') eqn:E; [apply String.eqb_eq in E; contradiction|reflexivity].
  - destruct (String.eqb k0 k) eqn:E; simpl.
    + apply String.eqb_eq in E; subst k0.
      destruct (String.eqb k k') eqn:E'; [apply String.eqb_eq in E'; contradiction|reflexivity].
    + destruct (String.eqb k0 k'); auto.
Qed.

Lemma inherited_absent k : k ∉ keys Object_prototype → inherited k = VUndefined.
Proof.
  intros Hk. unfold inherited.
  destruct (find _ _) as [member|] eqn:Hfind; [|reflexivity].
  apply find_some in Hfind as [Hin Heq]. apply String.eqb_eq in Heq.
  exfalso. apply Hk. rewrite <- Heq. apply list_elem_of_In, in_map, Hin.
Qed.

Lemma get_absent (r : row) k :
  k ∉ keys r → k ∉ keys Object_prototype → get r k = VUndefined.
Proof.
  intros Hk Hproto. revert Hk.
  induction r as [|[k' w] r IH]; simpl; [intros _; now apply inherited_absent|].
  intros Hk. destruct (String.eqb k' k) eqn:E.
  - apply String.eqb_eq in E; subst. exfalso; apply Hk; left.
  - apply IH. intros Hin; apply Hk; now right.
Qed.

Lemma includes_true (l : list string) h : includes l h = true ↔ h ∈ l.
Proof.
  unfold includes. rewrite existsb_exists. split.
  - intros (x & Hin & E). apply String.eqb_eq in E; subst. now apply list_elem_of_In.
  - intros Hin. exists h. split; [now apply list_elem_of_In|apply String.eqb_refl].
Qed.

Lemma includes_false (l : list string) h : includes l h = false ↔ h ∉ l.
Proof.
  rewrite <- includes_true. destruct (includes l h); split; congruence.
Qed.

(** ** Filtering *)
Section FilterProperties.
Context `{DateHost}.

(** The two copies of the [switch] agree. *)
Lemma applyFilters_every_evaluateFilter r f :
  applyFilters_every r f = evaluateFilter r f.
Proof. reflexivity. Qed.

(** C7: filtering is idempotent, for [applyFiltersWithLogic] under either
    logic operator and for [applyFilters]; an empty condition list (or
    none at all) returns the record set unchanged: the same rows in the
    same order. *)
Theorem filtering_idempotent (S : list row) (C : option (list filter))
    (logicOperator : option string) :
  applyFiltersWithLogic (applyFiltersWithLogic S C logicOperator) C logicOperator
    = applyFiltersWithLogic S C logicOperator
  ∧ applyFilters (applyFilters S C) C = applyFilters S C
  ∧ applyFiltersWithLogic S (Some []) logicOperator = S
  ∧ applyFiltersWithLogic S None logicOperator = S
  ∧ applyFilters S (Some []) = S
  ∧ applyFilters S None = S.
Proof.
  repeat split; try reflexivity.
  - unfold applyFiltersWithLogic.
    destruct C as [[|c C]|]; try reflexivity.
    destruct (String.eqb (default "AND" logicOperator) "OR"); apply filter_filter.
  - unfold applyFilters.
    destruct C as [[|c C]|]; try reflexivity. apply filter_filter.
Qed.

End FilterProperties.

(** ** Paging *)

Lemma slice_from_start {A} (l : list A) (a b : Z) :
  0 ≤ a → a ≤ b →
  slice l a b = take (Z.to_nat (b - a)) (drop (Z.to_nat a) l).
Proof.
  intros Ha Hab. unfold slice, relativeIndex.
  assert ((a <? 0) = false) as -> by lia.
  assert ((b <? 0) = false) as -> by lia.
  set (len := Z.of_nat (length l)).
  destruct (Z.le_gt_cases len a) as [Hge|Hlt].
  - rewrite !(drop_ge l) by lia. now rewrite !take_nil.
  - replace (Z.to_nat (Z.min a len)) with (Z.to_nat a) by lia.
    destruct (Z.le_gt_cases b len) as [Hb|Hb].
    + f_equal. lia.
    + rewrite !take_ge; [reflexivity| |]; rewrite length_drop; lia.
Qed.

Lemma slice_length {A} (l : list A) (a b : Z) :
  0 ≤ a → a ≤ b →
  Z.of_nat (length (slice l a b))
    = Z.max 0 (Z.min (b - a) (Z.of_nat (length l) - a)).
Proof.
  intros Ha Hab. rewrite slice_from_start by assumption.
  rewrite length_take, length_drop. lia.
Qed.

Lemma Math_ceil_div_spec (n k : Z) :
  0 < k → ∃ t, Math_ceil_div n k = Some t ∧ (t - 1) * k < n ≤ t * k.
Proof.
  intros Hk. unfold Math_ceil_div.
  assert ((k =? 0) = false) as -> by lia.
  eexists; split; [reflexivity|].
  pose proof (Z.div_mod (- n) k ltac:(lia)) as Hdm.
  pose proof (Z.mod_pos_bound (- n) k Hk). nia.
Qed.

(** C8: for a 1-based page number [p] and a page size [k >= 1], the page
    is the slice [[(p-1)*k, p*k)] of the rows clipped to their bounds,
    [totalPages] is the ceiling of [n / k] (the [t] with
    [(t-1)*k < n <= t*k]), and [hasMore] holds exactly when page [p + 1]
    is not empty. *)
Theorem paging_contract {A} (rows : list A) (p k : Z) :
  1 ≤ p → 1 ≤ k →
  (let n := Z.of_nat (length rows) in
   let result := paginate rows p k in
   fst result = take (Z.to_nat k) (drop (Z.to_nat ((p - 1) * k)) rows)
   ∧ Z.of_nat (length (fst result)) = Z.max 0 (Z.min k (n - (p - 1) * k))
   ∧ currentPage (snd result) = p
   ∧ (∃ t, totalPages (snd result) = Some t ∧ (t - 1) * k < n ≤ t * k)
   ∧ (hasMore (snd result) = true ↔ fst (paginate rows (p + 1) k) ≠ [])).
Proof.
  intros Hp Hk n result. subst result. unfold paginate; simpl.
  assert (0 ≤ (p - 1) * k) by nia.
  split; [|split; [|split; [|split]]].
  - rewrite slice_from_start by lia. do 2 f_equal. lia.
  - rewrite slice_length by lia. fold n. lia.
  - reflexivity.
  - apply Math_ceil_div_spec. lia.
  - rewrite Z.ltb_lt.
    pose proof (slice_length rows ((p + 1 - 1) * k) ((p + 1 - 1) * k + k)
                  ltac:(nia) ltac:(lia)) as Hlen.
    fold n in Hlen.
    destruct (slice rows ((p + 1 - 1) * k) ((p + 1 - 1) * k + k)) eqn:E;
      simpl in Hlen; split; intros Hx; try congruence; nia.
Qed.

(** Both routes page their rows with [paginate]. *)
Lemma filter_route_paging `{DateHost} (rows : list row) (filters : option (list filter))
    (p k : Z) :
  FilterRoute.handler {| FilterRoute.data := Some rows; FilterRoute.filters := filters;
                         FilterRoute.page := Some p; FilterRoute.pageSize := Some k |}
  = Ok {| FilterRoute.res_data := fst (paginate (applyFilters rows filters) p k);
          FilterRoute.totalRows := Z.of_nat (length (applyFilters rows filters));
          FilterRoute.originalRows := Z.of_nat (length rows);
          FilterRoute.paging := Some (snd (paginate (applyFilters rows filters) p k)) |}.
Proof. reflexivity. Qed.

Lemma reference_route_paging `{DateHost} (input : validated)
    (filterConditions : option (list filter)) (joinType logicOperator : string) (p k : Z) :
  let all := respond input filterConditions joinType logicOperator None None in
  let paged := respond input filterConditions joinType logicOperator (Some p) (Some k) in
  data paged = fst (paginate (data all) p k)
  ∧ paging paged = Some (snd (paginate (data all) p k))
  ∧ totalRows paged = Z.of_nat (length (data all)).
Proof.
  cbv zeta. unfold respond. destruct (joinRows _ _ _ _ _ _) as [joined matched].
  repeat split.
Qed.

(** 205 rows with a page size of 50: five pages, the fifth holds the five
    last rows and nothing follows it. *)
Lemma paging_contract_witness :
  1 ≤ 5 ∧ 1 ≤ 50 ∧
  (let rows := seq 1 205 in
   fst (paginate rows 5 50) = take 50 (drop 200 rows)
   ∧ Z.of_nat (length (fst (paginate rows 5 50))) = 5
   ∧ currentPage (snd (paginate rows 5 50)) = 5
   ∧ (∃ t, totalPages (snd (paginate rows 5 50)) = Some t ∧ (t - 1) * 50 < 205 ≤ t * 50)
   ∧ (hasMore (snd (paginate rows 5 50)) = true ↔ fst (paginate rows 6 50) ≠ [])).
Proof.
  split; [lia|]. split; [lia|].
  exact (paging_contract (seq 1 205) 5 50 ltac:(lia) ltac:(lia)).
Defined.

(** ** The numeric conditions *)

Section NumericConditions.
Context `{DateHost}.

Lemma parseFloat_undefined : parseFloat VUndefined = JS.NaN.
Proof. reflexivity. Qed.

Lemma parseFloat_null : parseFloat VNull = JS.NaN.
Proof. reflexivity. Qed.

(** C3, as the code has it: in the numeric family, when the cell or a
    comparison value does not parse to a number (the parse gives NaN),
    the predicate is false, except [notEquals], which is true. *)
Theorem numeric_parse_fallback (r : row) (f : filter) :
  condition f ∈ numericFamily →
  unparsed r f = true →
  evaluateFilter r f = String.eqb (condition f) "notEquals".
Proof.
  destruct f as [col cond v v2]. unfold unparsed, evaluateFilter. simpl.
  intros Hin. unfold numericFamily in Hin.
  repeat (apply elem_of_cons in Hin as [->|Hin]);
    [..|now apply elem_of_nil in Hin]; simpl;
    destruct (JS.isNaN_num (parseFloat (get r col)));
    destruct (JS.isNaN_num (parseFloat v));
    simpl; try reflexivity; try discriminate.
  now intros ->.
Qed.

End NumericConditions.

(** ** Rows without the filtered column *)
Section MissingColumn.
Context `{DateHost}.

(** C10, as the code has it: a condition on a column that the row does
    not have, and whose name is not that of a member every object
    inherits ([constructor], [toString], ...), reads [undefined], whose
    text is the empty string; [isEmpty] is then true, [isNotEmpty]
    false, and in the numeric family everything is false but
    [notEquals].  The evaluation is a total function: nothing is
    thrown. *)
Theorem missing_column (r : row) (f : filter) :
  column f ∉ keys r →
  column f ∉ keys Object_prototype →
  condition f ∈ numericFamily ++ ["isEmpty"; "isNotEmpty"] →
  get r (column f) = VUndefined
  ∧ cellValueStr (get r (column f)) = ""
  ∧ evaluateFilter r f
    = (String.eqb (condition f) "notEquals" || String.eqb (condition f) "isEmpty").
Proof.
  intros Hcol Hproto Hin. pose proof (get_absent r _ Hcol Hproto) as Hget.
  split; [exact Hget|]. split; [now rewrite Hget|].
  destruct f as [col cond v v2]. unfold evaluateFilter. simpl in *.
  rewrite Hget.
  repeat (apply elem_of_cons in Hin as [->|Hin]);
    [..|now apply elem_of_nil in Hin]; reflexivity.
Qed.

End MissingColumn.

(** ** The join *)

Lemma dropChars_prefixed h : JS.dropChars 4 (prefixed h) = h.
Proof. reflexivity. Qed.

Lemma keys_set_prefix (r : row) k v : keys r `prefix_of` keys (set r k v).
Proof.
  induction r as [|[k' w] r IH]; simpl.
  - apply prefix_nil.
  - destruct (String.eqb k' k); simpl; [reflexivity|]. now apply prefix_cons.
Qed.

Section MergeRows.
Variables (refHeaders primaryHeaders : list string).

(** Writing a cell under every prefixed reference name, starting from any
    row [acc]. *)
Lemma get_foldl_set (cellOf : string → val) (R : list string) (acc : row) (c : string) :
  get (foldl (fun mergedRow header => set mergedRow (prefixed header) (cellOf header)) acc R) c
  = if includes (map prefixed R) c then cellOf (JS.dropChars 4 c) else get acc c.
Proof.
  revert acc. induction R as [|h R IH]; intros acc; [reflexivity|].
  cbn [foldl map]. rewrite IH.
  change (includes (prefixed h :: map prefixed R) c)
    with (String.eqb c (prefixed h) || includes (map prefixed R) c).
  destruct (includes (map prefixed R) c); [now rewrite orb_true_r|].
  rewrite orb_false_r. destruct (String.eqb c (prefixed h)) eqn:E.
  - apply String.eqb_eq in E; subst c. rewrite get_set_eq. reflexivity.
  - apply get_set_ne. intros Heq. subst c. now rewrite String.eqb_refl in E.
Qed.

Lemma keys_foldl_set (cellOf : string → val) (R : list string) (acc : row) :
  keys acc `prefix_of`
    keys (foldl (fun mergedRow header => set mergedRow (prefixed header) (cellOf header)) acc R).
Proof.
  revert acc. induction R as [|h R IH]; intros acc; simpl; [reflexivity|].
  etransitivity; [apply keys_set_prefix|apply IH].
Qed.

Lemma mergeMatch_foldl (primaryRow refRow : row) :
  mergeMatch refHeaders primaryHeaders primaryRow refRow
  = foldl (fun mergedRow header => set mergedRow (prefixed header) (get refRow header))
          primaryRow refHeaders.
Proof.
  unfold mergeMatch. apply foldl_ext. intros mergedRow header. unfold prefixed.
  now destruct (includes primaryHeaders header).
Qed.

Lemma mergeUnmatched_foldl (primaryRow : row) :
  mergeUnmatched refHeaders primaryHeaders primaryRow
  = foldl (fun mergedRow header => set mergedRow (prefixed header) VNull)
          primaryRow refHeaders.
Proof.
  unfold mergeUnmatched. apply foldl_ext. intros mergedRow header. unfold prefixed.
  now destruct (includes primaryHeaders header).
Qed.

Lemma get_mergeMatch (primaryRow refRow : row) (c : string) :
  get (mergeMatch refHeaders primaryHeaders primaryRow refRow) c
  = if includes (map prefixed refHeaders) c then get refRow (JS.dropChars 4 c)
    else get primaryRow c.
Proof. rewrite mergeMatch_foldl. apply (get_foldl_set (get refRow)). Qed.

Lemma get_mergeUnmatched (primaryRow : row) (c : string) :
  get (mergeUnmatched refHeaders primaryHeaders primaryRow) c
  = if includes (map prefixed refHeaders) c then VNull else get primaryRow c.
Proof. rewrite mergeUnmatched_foldl. apply (get_foldl_set (fun _ => VNull)). Qed.

End MergeRows.

Section JoinProperties.
Context `{DateHost}.

Section LookupMap.
Variable keyColumns : list keyColumn.

Lemma lookup_addToMap (m : gmap string (list row)) (refRow : row) (k : string) :
  addToMap keyColumns m refRow !! k
  = if String.eqb (refKey keyColumns refRow) k
    then Some (default [] (m !! k) ++ [refRow])
    else m !! k.
Proof.
  unfold addToMap. destruct (String.eqb (refKey keyColumns refRow) k) eqn:E.
  - apply String.eqb_eq in E; subst k.
    destruct (m !! refKey keyColumns refRow) as [bucket|] eqn:Hm.
    + rewrite lookup_alter_eq, Hm. reflexivity.
    + rewrite lookup_alter_eq, lookup_insert_eq. reflexivity.
  - assert (refKey keyColumns refRow ≠ k) as Hne
      by (intros Heq; rewrite Heq, String.eqb_refl in E; discriminate).
    rewrite lookup_alter_ne by assumption.
    destruct (m !! refKey keyColumns refRow); [reflexivity|].
    now rewrite lookup_insert_ne.
Qed.

Lemma lookup_foldl_addToMap (rows : list row) (m : gmap string (list row)) (k : string) :
  foldl (addToMap keyColumns) m rows !! k
  = match m !! k, withKey keyColumns k rows with
    | None, [] => None
    | bucket, more => Some (default [] bucket ++ more)
    end.
Proof.
  revert m. induction rows as [|refRow rows IH]; intros m; simpl.
  - destruct (m !! k); simpl; [now rewrite app_nil_r|reflexivity].
  - rewrite IH, lookup_addToMap.
    destruct (String.eqb (refKey keyColumns refRow) k); simpl.
    + destruct (m !! k); simpl; now rewrite <- ?app_assoc.
    + reflexivity.
Qed.

(** Each bucket of the lookup map holds, in their order, the filtered
    reference rows with that key; there is no empty bucket. *)
Lemma lookup_buildReferenceMap (rows : list row) (k : string) :
  buildReferenceMap keyColumns rows !! k
  = match withKey keyColumns k rows with [] => None | bucket => Some bucket end.
Proof.
  unfold buildReferenceMap. rewrite lookup_foldl_addToMap, lookup_empty.
  now destruct (withKey keyColumns k rows).
Qed.

End LookupMap.

Section JoinLoop.
Variables (refHeaders primaryHeaders : list string).
Variables (keyColumns : list keyColumn) (joinType : string).
Variable filteredReferenceData : list row.

Lemma joinStep_joinedFor (joinedData : list row) (matched : gset string) (primaryRow : row) :
  fst (joinStep (buildReferenceMap keyColumns filteredReferenceData)
                refHeaders primaryHeaders keyColumns joinType
                (joinedData, matched) primaryRow)
  = joinedData ++ joinedFor refHeaders primaryHeaders keyColumns joinType
                            filteredReferenceData primaryRow.
Proof.
  unfold joinStep, joinedFor, matchesOf.
  rewrite lookup_buildReferenceMap.
  destruct (withKey keyColumns (primaryKey keyColumns primaryRow) filteredReferenceData);
    [|reflexivity].
  destruct (String.eqb joinType "left"); simpl; [reflexivity|now rewrite app_nil_r].
Qed.

Lemma foldl_joinStep (primaryData : list row) (state : list row * gset string) :
  fst (foldl (joinStep (buildReferenceMap keyColumns filteredReferenceData)
                       refHeaders primaryHeaders keyColumns joinType)
             state primaryData)
  = fst state ++ flat_map (joinedFor refHeaders primaryHeaders keyColumns joinType
                                     filteredReferenceData) primaryData.
Proof.
  revert state. induction primaryData as [|primaryRow rest IH]; intros [joined matched].
  - simpl. now rewrite app_nil_r.
  - cbn [foldl flat_map]. rewrite IH, joinStep_joinedFor. now rewrite <- app_assoc.
Qed.

(** The join loop emits, primary row by primary row, the rows of
    [joinedFor]. *)
Lemma joinRows_joinedFor (primaryData : list row) :
  fst (joinRows (buildReferenceMap keyColumns filteredReferenceData)
                refHeaders primaryHeaders keyColumns joinType primaryData)
  = flat_map (joinedFor refHeaders primaryHeaders keyColumns joinType
                        filteredReferenceData) primaryData.
Proof. unfold joinRows. now rewrite foldl_joinStep. Qed.

End JoinLoop.

Lemma data_respond (input : validated) (filterConditions : option (list filter))
    (joinType logicOperator : string) :
  data (respond input filterConditions joinType logicOperator None None)
  = flat_map (joinedFor (refHeaders input) (primaryHeaders input) (v_keyColumns input)
                joinType
                (filterReference (v_referenceData input) filterConditions logicOperator))
             (v_primaryData input).
Proof.
  unfold respond. rewrite <- joinRows_joinedFor.
  now destruct (joinRows _ _ _ _ _ _).
Qed.

Lemma handler_valid (body : request) (input : validated) :
  validate body = Ok input →
  handler body
  = Ok (respond input (filterConditions body) (default "inner" (joinType body))
                (default "AND" (logicOperator body)) (page body) (pageSize body)).
Proof. intros Hv. unfold handler. now rewrite Hv. Qed.

Lemma length_flat_map {A B} (f : A → list B) (l : list A) :
  length (flat_map f l) = list_sum (map (fun x => length (f x)) l).
Proof.
  induction l as [|x l IH]; simpl; [reflexivity|]. now rewrite length_app, IH.
Qed.

Lemma length_joinedFor_left R P kc filtered p :
  length (joinedFor R P kc "left" filtered p)
  = (1 + (length (matchesOf kc filtered p) - 1))%nat.
Proof.
  unfold joinedFor. destruct (matchesOf kc filtered p) as [|m ms]; [reflexivity|].
  rewrite length_map. simpl. lia.
Qed.

(** C1, as the code has it: a left join on a valid request emits, for
    each primary row in order, one merged row per reference row with
    the same composite key, and exactly one row when there is none; so
    the number of rows is the number of primary rows plus one for every
    further match of a primary row.  The row of an unmatched primary row
    reads [null] under every prefixed reference column name. *)
Theorem left_join_rows (body : request) (input : validated) :
  validate body = Ok input →
  joinType body = Some "left" →
  page body = None →
  (let R := refHeaders input in
   let P := primaryHeaders input in
   let kc := v_keyColumns input in
   let filtered := filterReference (v_referenceData input) (filterConditions body)
                                   (default "AND" (logicOperator body)) in
   ∃ res, handler body = Ok res
    ∧ data res
      = flat_map (fun p => match matchesOf kc filtered p with
                           | [] => [mergeUnmatched R P p]
                           | matching => map (mergeMatch R P p) matching
                           end) (v_primaryData input)
    ∧ length (data res)
      = (length (v_primaryData input)
         + list_sum (map (fun p => length (matchesOf kc filtered p) - 1)
                         (v_primaryData input)))%nat
    ∧ ∀ p c, get (mergeUnmatched R P p) c
             = if includes (map prefixed R) c then VNull else get p c).
Proof.
  intros Hv Hjt Hpage. cbv zeta.
  eexists. split; [apply handler_valid, Hv|].
  rewrite Hjt, Hpage. simpl default.
  replace (respond input (filterConditions body) "left"
             (default "AND" (logicOperator body)) None (pageSize body))
    with (respond input (filterConditions body) "left"
             (default "AND" (logicOperator body)) None None)
    by (unfold respond; destruct (joinRows _ _ _ _ _ _); reflexivity).
  rewrite data_respond. split; [reflexivity|]. split.
  - rewrite length_flat_map.
    induction (v_primaryData input) as [|p ps IH]; [reflexivity|].
    cbn [map list_sum fold_right length]. rewrite length_joinedFor_left.
    fold (list_sum (map (fun x => length (joinedFor (refHeaders input)
            (primaryHeaders input) (v_keyColumns input) "left"
            (filterReference (v_referenceData input) (filterConditions body)
               (default "AND" (logicOperator body))) x)) ps)).
    rewrite IH. unfold list_sum. lia.
  - intros p c. apply get_mergeUnmatched.
Qed.

Lemma headers_respond (input : validated) (filterConditions : option (list filter))
    (joinType logicOperator : string) (page pageSize : option Z) :
  headers (respond input filterConditions joinType logicOperator page pageSize)
  = primaryHeaders input ++ map prefixed (refHeaders input).
Proof.
  unfold respond. destruct (joinRows _ _ _ _ _ _) as [joined matched].
  destruct page as [pg|], pageSize as [ps|]; reflexivity.
Qed.

(** X30: a merged row reads, under the prefixed name of a reference
    column, the reference row's cell, and under every other name what
    the primary row reads; the primary row's columns stay first and in
    order, and the response header is the primary header followed by
    the prefixed reference header. *)
Theorem merged_row_columns (input : validated) (primaryRow refRow : row) (c : string)
    (filterConditions : option (list filter)) (joinType logicOperator : string)
    (page pageSize : option Z) :
  let merged := mergeMatch (refHeaders input) (primaryHeaders input) primaryRow refRow in
  get merged c
  = (if includes (map prefixed (refHeaders input)) c
     then get refRow (JS.dropChars 4 c) else get primaryRow c)
  ∧ Forall (fun header => get merged (prefixed header) = get refRow header)
           (refHeaders input)
  ∧ keys primaryRow `prefix_of` keys merged
  ∧ headers (respond input filterConditions joinType logicOperator page pageSize)
    = primaryHeaders input ++ map prefixed (refHeaders input).
Proof.
  cbv zeta. split; [apply get_mergeMatch|]. split; [|split].
  - apply Forall_forall. intros header Hin. rewrite get_mergeMatch.
    assert (includes (map prefixed (refHeaders input)) (prefixed header) = true) as ->.
    { apply includes_true. now apply list_elem_of_fmap_2. }
    reflexivity.
  - rewrite mergeMatch_foldl. apply keys_foldl_set.
  - apply headers_respond.
Qed.





Lemma checkKeyColumns_names_defect (R P : list string) (keyCols : list keyColumn) :
  (∃ keyCol, keyCol ∈ keyCols ∧ (refColumn keyCol ∉ R ∨ primaryColumn keyCol ∉ P)) →
  ∃ keyCol, keyCol ∈ keyCols ∧
    (((refColumn keyCol ∉ R) ∧
      (checkKeyColumns R P keyCols
       = Some ("Reference column " +:+ quote +:+ refColumn keyCol +:+ quote +:+ " not found")))
     ∨ ((primaryColumn keyCol ∉ P) ∧
        (checkKeyColumns R P keyCols
         = Some ("Primary column " +:+ quote +:+ primaryColumn keyCol +:+ quote +:+ " not found")))).
Proof.
  induction keyCols as [|k rest IH]; intros (keyCol & Hin & Hbad).
  - now apply elem_of_nil in Hin.
  - cbn [checkKeyColumns].
    destruct (includes R (refColumn k)) eqn:ER; simpl.
    + destruct (includes P (primaryColumn k)) eqn:EP; simpl.
      * apply includes_true in ER, EP.
        apply elem_of_cons in Hin as [->|Hin]; [tauto|].
        destruct IH as (k' & Hk' & Hmsg); [now exists keyCol|].
        exists k'. split; [now apply elem_of_cons; right|exact Hmsg].
      * apply includes_false in EP.
        exists k. split; [apply elem_of_cons; now left|]. right. now split.
    + apply includes_false in ER.
      exists k. split; [apply elem_of_cons; now left|]. left. now split.
Qed.

(** C6: a join request with no reference rows, no primary rows, or a key
    column that is missing from the header of its side is refused: the
    route answers with status 400 and no result, and the error reports a
    defect the request has (the empty side, or the first missing key
    column with its side). *)
Theorem join_validation (body : request) (reported : string) :
  defect body reported →
  ∃ error, defect body error ∧ handler body = Err 400 error.
Proof.
  intros Hdefect. unfold handler, validate.
  destruct (referenceData body) as [[|refFirst refRest]|] eqn:Href;
    try (eexists; split; [apply NoReferenceRows; rewrite Href; tauto|reflexivity]).
  destruct (primaryData body) as [[|primaryFirst primaryRest]|] eqn:Hprim;
    try (eexists; split; [apply NoPrimaryRows; rewrite Hprim; tauto|reflexivity]).
  assert (∃ keyCols keyCol, keyColumns body = Some keyCols ∧ keyCol ∈ keyCols
            ∧ (refColumn keyCol ∉ keys refFirst ∨ primaryColumn keyCol ∉ keys primaryFirst))
    as (keyCols & keyCol & Hkeys & Hin & Hbad).
  { destruct Hdefect as [[?|?]|[?|?]|rf rr pf pr ks k Hr Hp Hk Hin Hbad
                         |rf rr pf pr ks k Hr Hp Hk Hin Hbad]; try congruence;
      exists ks, k; repeat split; auto;
      rewrite Hr in Href; rewrite Hp in Hprim;
      injection Href as -> ->; injection Hprim as -> ->; tauto. }
  rewrite Hkeys.
  destruct (checkKeyColumns_names_defect (keys refFirst) (keys primaryFirst) keyCols)
    as (k & Hk & [[Hbad' Hmsg]|[Hbad' Hmsg]]); [now exists keyCol| |].
  - destruct keyCols as [|k0 rest]; [now apply elem_of_nil in Hk|].
    rewrite Hmsg. eexists. split; [|reflexivity].
    eapply NoReferenceColumn; eauto.
  - destruct keyCols as [|k0 rest]; [now apply elem_of_nil in Hk|].
    rewrite Hmsg. eexists. split; [|reflexivity].
    eapply NoPrimaryColumn; eauto.
Qed.

End JoinProperties.

(** ** Composite keys *)

Lemma lowerChar_idempotent (c : ascii) : JS.lowerChar (JS.lowerChar c) = JS.lowerChar c.
Proof. destruct c as [[] [] [] [] [] [] [] []]; reflexivity. Qed.

Lemma isWhiteSpace_lowerChar (c : ascii) :
  JS.isWhiteSpace (JS.lowerChar c) = JS.isWhiteSpace c.
Proof. destruct c as [[] [] [] [] [] [] [] []]; reflexivity. Qed.

Lemma toLowerCase_idempotent (s : string) :
  JS.toLowerCase (JS.toLowerCase s) = JS.toLowerCase s.
Proof.
  induction s as [|c s IH]; simpl; [reflexivity|].
  now rewrite lowerChar_idempotent, IH.
Qed.

Lemma toLowerCase_trimStart (s : string) :
  JS.toLowerCase (JS.trimStart s) = JS.trimStart (JS.toLowerCase s).
Proof.
  induction s as [|c s IH]; simpl; [reflexivity|].
  rewrite isWhiteSpace_lowerChar. now destruct (JS.isWhiteSpace c).
Qed.

Lemma toLowerCase_trimEnd (s : string) :
  JS.toLowerCase (JS.trimEnd s) = JS.trimEnd (JS.toLowerCase s).
Proof.
  induction s as [|c s IH]; simpl; [reflexivity|].
  rewrite <- IH, isWhiteSpace_lowerChar.
  destruct (JS.trimEnd s); simpl; [now destruct (JS.isWhiteSpace c)|reflexivity].
Qed.

Lemma toLowerCase_trim (s : string) :
  JS.toLowerCase (JS.trim s) = JS.trim (JS.toLowerCase s).
Proof. unfold JS.trim. now rewrite toLowerCase_trimEnd, toLowerCase_trimStart. Qed.

Lemma trimEnd_idempotent (s : string) : JS.trimEnd (JS.trimEnd s) = JS.trimEnd s.
Proof.
  induction s as [|c s IH]; simpl; [reflexivity|].
  destruct (JS.trimEnd s) as [|c' t] eqn:E.
  - destruct (JS.isWhiteSpace c) eqn:Ec; simpl; [reflexivity|now rewrite Ec].
  - cbn [JS.trimEnd] in *. now rewrite IH.
Qed.

Lemma trimStart_idempotent (s : string) : JS.trimStart (JS.trimStart s) = JS.trimStart s.
Proof.
  induction s as [|c s IH]; simpl; [reflexivity|].
  destruct (JS.isWhiteSpace c) eqn:Ec; [exact IH|]. simpl. now rewrite Ec.
Qed.

Lemma length_trimStart (s : string) :
  (String.length (JS.trimStart s) ≤ String.length s)%nat.
Proof.
  induction s as [|c s IH]; simpl; [lia|].
  destruct (JS.isWhiteSpace c); simpl; lia.
Qed.

(** Trimming the end of a string leaves its beginning alone. *)
Lemma trimStart_trimEnd (s : string) :
  JS.trimStart s = s → JS.trimStart (JS.trimEnd s) = JS.trimEnd s.
Proof.
  destruct s as [|c s]; simpl; [reflexivity|].
  destruct (JS.isWhiteSpace c) eqn:Ec.
  - intros Hs. exfalso. pose proof (length_trimStart s) as Hlen.
    rewrite Hs in Hlen. simpl in Hlen. lia.
  - intros _. destruct (JS.trimEnd s); simpl; now rewrite Ec.
Qed.

Lemma trim_idempotent (s : string) : JS.trim (JS.trim s) = JS.trim s.
Proof.
  unfold JS.trim.
  rewrite (trimStart_trimEnd _ (trimStart_idempotent s)).
  apply trimEnd_idempotent.
Qed.

Section CompositeKeys.
Context `{DateHost}.

Lemma bucket_withKey (keyColumns : list keyColumn) (rows : list row) (k : string) :
  default [] (buildReferenceMap keyColumns rows !! k) = withKey keyColumns k rows.
Proof. rewrite lookup_buildReferenceMap. now destruct (withKey keyColumns k rows). Qed.

(** C4: a key component is the text of the cell, trimmed and in lower
    case, and the empty text for [null] and [undefined]; so it is the
    same for a text, its lower-case form and its trimmed form, and
    ["ABC "] meets ["abc"], both giving ["abc"].  The reference rows
    found for a primary row are exactly the filtered reference rows
    whose normalized components, joined by ["|||"] in key-column order,
    give the same string as the primary row's. *)
Theorem composite_key_matching (keyColumns : list keyColumn)
    (filteredReferenceData : list row) (primaryRow refRow : row) (s : string)
    (v : val) :
  let normalized (value : val) :=
    if isNullish value then "" else JS.toLowerCase (JS.trim (ToString value)) in
  keyPart v = normalized v
  ∧ keyPart (VStr "ABC ") = "abc" ∧ keyPart (VStr "abc") = "abc"
  ∧ keyPart (VStr (JS.toLowerCase s)) = keyPart (VStr s)
  ∧ keyPart (VStr (JS.trim s)) = keyPart (VStr s)
  ∧ keyPart VNull = "" ∧ keyPart VUndefined = ""
  ∧ (refRow ∈ default [] (buildReferenceMap keyColumns filteredReferenceData
                            !! primaryKey keyColumns primaryRow)
     ↔ refRow ∈ filteredReferenceData
       ∧ JS.join "|||" (map (fun kc => normalized (get refRow (refColumn kc))) keyColumns)
         = JS.join "|||" (map (fun kc => normalized (get primaryRow (primaryColumn kc)))
                              keyColumns)).
Proof.
  cbv zeta.
  assert (∀ value, keyPart value
                   = if isNullish value then ""
                     else JS.toLowerCase (JS.trim (ToString value))) as Hnormal.
  { intros value. unfold keyPart. destruct (isNullish value); [reflexivity|].
    cbn [negb]. symmetry. apply toLowerCase_trim. }
  split; [apply Hnormal|]. split; [reflexivity|]. split; [reflexivity|].
  split; [|split; [|split; [|split]]]; try reflexivity.
  - unfold keyPart; simpl. now rewrite toLowerCase_idempotent.
  - unfold keyPart; simpl. now rewrite toLowerCase_trim, trim_idempotent.
  - rewrite bucket_withKey. unfold withKey.
    rewrite list_elem_of_In, filter_In, <- list_elem_of_In, String.eqb_eq.
    unfold refKey, primaryKey.
    rewrite (map_ext _ _ (fun kc => Hnormal (get refRow (refColumn kc)))).
    rewrite (map_ext _ _ (fun kc => Hnormal (get primaryRow (primaryColumn kc)))).
    reflexivity.
Qed.

End CompositeKeys.

(** ** Column type inference on a small sheet *)
Section SmallSheets.
Context `{DateHost}.

(** No non-empty sampled value: the column is text. *)
Lemma columnType_empty_sample (data : list row) (sampleSize : Z) (header : string) :
  Upload.sampleValues data sampleSize header = [] →
  Upload.columnType data sampleSize header = TText.
Proof. intros Hs. unfold Upload.columnType. now rewrite Hs. Qed.

(** Fewer than ten rows: nothing is sampled. *)
Lemma sampleValues_small_sheet (data : list row) (header : string) :
  (length data < 10)%nat →
  Upload.sampleValues data (Upload.sampleSize data) header = [].
Proof.
  intros Hlen. unfold Upload.sampleValues, Upload.sampleSize.
  replace (Z.of_nat (length data) / 10) with 0 by (symmetry; apply Z.div_small; lia).
  change (Z.min 100 0) with 0. rewrite slice_from_start by lia. reflexivity.
Qed.

(** C2 on the code: for the sheet whose column holds 1, 2, "3" and "",
    the sample size is 0, so [parseExcel] types the column as text; the
    four values themselves, once sampled, give number. *)
Theorem four_row_sheet_is_text :
  Upload.sampleSize Examples.sheet = 0
  ∧ (∃ p, Upload.parseExcel Examples.sheet = inr p
          ∧ Upload.columnTypes p !! "c" = Some TText)
  ∧ Upload.columnType Examples.sheet 4 "c" = TNumber.
Proof.
  split; [reflexivity|]. split; [|reflexivity].
  eexists. split; [reflexivity|]. simpl.
  rewrite lookup_insert_eq. f_equal.
Qed.

End SmallSheets.

(** ** The properties at work, and where the stated ones stop *)

(** A left join with two reference rows for one primary row emits two
    rows. *)
Lemma left_join_fan_out_counterexample :
  let body := Examples.joinRequest Examples.twoRegions Examples.bob
                [Examples.idKey] (Some "left") in
  ∃ res, handler (H := ExampleHost.host) body = Ok res
         ∧ length (data res) = 2%nat
         ∧ length Examples.bob = 1%nat.
Proof. eexists. split; [reflexivity|]. split; reflexivity. Qed.

(** ["Infinity"] is not a finite number, yet it takes part in the
    comparisons: [greaterThan] holds against 100, and [notEquals] fails
    against itself. *)
Lemma infinite_operand_counterexample :
  let r : row := [("amount", VStr "Infinity")] in
  let above := Examples.condition_on "amount" "greaterThan" (VStr "100") in
  let differs := Examples.condition_on "amount" "notEquals" (VStr "Infinity") in
  JS.isFinite_num (parseFloat (H := ExampleHost.host) (get r "amount")) = false
  ∧ evaluateFilter (H := ExampleHost.host) r above = true
  ∧ evaluateFilter (H := ExampleHost.host) r differs = false.
Proof. repeat split; vm_compute; reflexivity. Qed.

(** A row without a column [constructor] reads, under that name, the
    function that every object inherits: the cell is not [undefined],
    its text is not empty, and [isEmpty] is false of it. *)
Lemma inherited_column_counterexample :
  let r : row := [("name", VStr "Bob")] in
  let f := Examples.condition_on "constructor" "isEmpty" VUndefined in
  let g := Examples.condition_on "constructor" "isNotEmpty" VUndefined in
  (column f ∉ keys r)
  ∧ condition f ∈ numericFamily ++ ["isEmpty"; "isNotEmpty"]
  ∧ get r (column f) = VBuiltin "Object"
  ∧ cellValueStr (H := ExampleHost.host) (get r (column f))
    = "function Object() { [native code] }"
  ∧ evaluateFilter (H := ExampleHost.host) r f = false
  ∧ evaluateFilter (H := ExampleHost.host) r g = true.
Proof.
  cbv zeta. split.
  { rewrite list_elem_of_In. simpl. intros [Heq|[]]. discriminate Heq. }
  split; [apply list_elem_of_In; simpl; tauto|].
  repeat split; reflexivity.
Qed.

(** C5: the merge does not keep the primary value of a primary column
    that is named like a prefixed reference column.  For a primary row
    with the columns [id] and [ref_id] and a reference row with the
    columns [id] and [region], the primary cell under [ref_id] is
    overwritten by the reference cell under [id], the merged row has
    three columns, and the response header lists [ref_id] twice. *)
Theorem prefixed_primary_column_overwritten :
  let body := Examples.joinRequest Examples.regions Examples.tagged
                [Examples.idKey] None in
  ∃ primaryRow merged res,
    [primaryRow] = Examples.tagged
    ∧ handler (H := ExampleHost.host) body = Ok res
    ∧ data res = [merged]
    ∧ get primaryRow "ref_id" = VStr "kept?"
    ∧ get merged "ref_id" = VStr "A1"
    ∧ keys merged = ["id"; "ref_id"; "ref_region"]
    ∧ headers res = ["id"; "ref_id"; "ref_id"; "ref_region"].
Proof. do 3 eexists. repeat split; reflexivity. Qed.

Lemma numeric_parse_fallback_witness :
  let r : row := [("amt", VStr "abc")] in
  let f := Examples.condition_on "amt" "greaterThan" (VStr "100") in
  condition f ∈ numericFamily
  ∧ unparsed (H := ExampleHost.host) r f = true
  ∧ evaluateFilter (H := ExampleHost.host) r f = String.eqb (condition f) "notEquals".
Proof.
  cbv zeta.
  assert (condition (Examples.condition_on "amt" "greaterThan" (VStr "100"))
            ∈ numericFamily) as Hin
    by (apply list_elem_of_In; simpl; tauto).
  assert (unparsed (H := ExampleHost.host) [("amt", VStr "abc")]
            (Examples.condition_on "amt" "greaterThan" (VStr "100")) = true) as Hnan
    by reflexivity.
  split; [exact Hin|]. split; [exact Hnan|].
  exact (numeric_parse_fallback (H := ExampleHost.host) _ _ Hin Hnan).
Defined.

Lemma missing_column_witness :
  let r : row := [("name", VStr "Bob")] in
  let f := Examples.condition_on "note" "isEmpty" VUndefined in
  (column f ∉ keys r)
  ∧ (column f ∉ keys Object_prototype)
  ∧ condition f ∈ numericFamily ++ ["isEmpty"; "isNotEmpty"]
  ∧ get r (column f) = VUndefined
  ∧ cellValueStr (H := ExampleHost.host) (get r (column f)) = ""
  ∧ evaluateFilter (H := ExampleHost.host) r f = true.
Proof.
  cbv zeta.
  assert (column (Examples.condition_on "note" "isEmpty" VUndefined)
            ∉ keys [("name", VStr "Bob")]) as Hcol.
  { rewrite list_elem_of_In. simpl. intros [Heq|[]]. discriminate Heq. }
  assert (column (Examples.condition_on "note" "isEmpty" VUndefined)
            ∉ keys Object_prototype) as Hproto.
  { rewrite list_elem_of_In. simpl. intuition discriminate. }
  assert (condition (Examples.condition_on "note" "isEmpty" VUndefined)
            ∈ numericFamily ++ ["isEmpty"; "isNotEmpty"]) as Hin
    by (apply list_elem_of_In; simpl; tauto).
  split; [exact Hcol|]. split; [exact Hproto|]. split; [exact Hin|].
  exact (missing_column (H := ExampleHost.host) _ _ Hcol Hproto Hin).
Defined.

(** Scenario C of the design: Bob meets region East, Sue meets none and
    is kept with [null] reference cells. *)
Lemma left_join_rows_witness :
  let body := Examples.joinRequest Examples.regions Examples.people
                [Examples.idKey] (Some "left") in
  ∃ res, handler (H := ExampleHost.host) body = Ok res
    ∧ data res
      = [[("id", VStr "a1"); ("name", VStr "Bob");
          ("ref_id", VStr "A1"); ("ref_region", VStr "East")];
         [("id", VStr "B2"); ("name", VStr "Sue");
          ("ref_id", VNull); ("ref_region", VNull)]]
    ∧ length (data res) = 2%nat.
Proof.
  cbv zeta.
  destruct (left_join_rows (H := ExampleHost.host)
              (Examples.joinRequest Examples.regions Examples.people
                 [Examples.idKey] (Some "left"))
              {| v_referenceData := Examples.regions; v_primaryData := Examples.people;
                 v_keyColumns := [Examples.idKey];
                 refHeaders := ["id"; "region"]; primaryHeaders := ["id"; "name"] |}
              eq_refl eq_refl eq_refl)
    as (res & Hres & Hdata & Hlen & _).
  exists res. split; [exact Hres|]. split; [exact Hdata|exact Hlen].
Defined.


Lemma join_validation_witness :
  let body := Examples.joinRequest Examples.regions Examples.people
                [{| refColumn := "code"; primaryColumn := "id" |}] None in
  ∃ error, defect body error ∧ handler (H := ExampleHost.host) body = Err 400 error.
Proof.
  cbv zeta.
  set (keyCol := {| refColumn := "code"; primaryColumn := "id" |}).
  set (body := Examples.joinRequest Examples.regions Examples.people [keyCol] None).
  assert (keyCol ∈ [keyCol]) as Hin by (apply elem_of_cons; now left).
  assert (refColumn keyCol ∉ keys [("id", VStr "A1"); ("region", VStr "East")]) as Hcol.
  { rewrite list_elem_of_In. simpl. intros [Heq|[Heq|[]]]; discriminate Heq. }
  exact (join_validation (H := ExampleHost.host) body _
           (NoReferenceColumn body _ [] _ [[("id", VStr "B2"); ("name", VStr "Sue")]]
              [keyCol] keyCol eq_refl eq_refl eq_refl Hin Hcol)).
Defined.

(** * Further properties *)

(** ** The conditions, one against another *)

Lemma SFcompare_swap (x y : spec_float) :
  SFcompare y x = option_map CompOpp (SFcompare x y).
Proof.
  destruct x as [sx|sx| |sx mx ex], y as [sy|sy| |sy my ey]; simpl;
    try reflexivity; try (now destruct sx); try (now destruct sy);
    try (now destruct sx, sy).
  change (Pos.compare_cont Eq my mx) with (Pos.compare my mx).
  change (Pos.compare_cont Eq mx my) with (Pos.compare mx my).
  rewrite (Z.compare_antisym ex ey), (Pos.compare_antisym mx my).
  destruct sx, sy; simpl; try reflexivity;
    destruct (ex ?= ey)%Z; simpl; try reflexivity;
    now destruct (mx ?= my)%positive.
Qed.

Lemma SFcompare_defined (x y : spec_float) :
  JS.isNaN_num x = false → JS.isNaN_num y = false → is_Some (SFcompare x y).
Proof.
  destruct x as [sx|sx| |sx mx ex], y as [sy|sy| |sy my ey]; simpl;
    intros Hx Hy; try discriminate; eauto.
Qed.

Section Conditions.
Context `{DateHost}.

(** X1: each negative condition is the exact complement of its positive
    one, on every row and for every comparison value: [notEquals] of
    [equals], [doesNotContain] of [contains], [isNotEmpty] of [isEmpty]. *)
Theorem negative_conditions (r : row) (f : filter) :
  evaluateFilter r (withCondition "notEquals" f)
  = negb (evaluateFilter r (withCondition "equals" f))
  ∧ evaluateFilter r (withCondition "doesNotContain" f)
    = negb (evaluateFilter r (withCondition "contains" f))
  ∧ evaluateFilter r (withCondition "isNotEmpty" f)
    = negb (evaluateFilter r (withCondition "isEmpty" f)).
Proof.
  destruct f as [col cond v v2]. unfold evaluateFilter, withCondition. simpl.
  split; [|split; [reflexivity|]].
  - destruct (JS.isNaN_num (parseFloat (get r col)));
      destruct (JS.isNaN_num (parseFloat v)); reflexivity.
  - destruct (isNullish (get r col)), (isEmptyString (get r col)); reflexivity.
Qed.

(** X2: [between] is [greaterThanOrEqual] the lower bound and
    [lessThanOrEqual] the upper bound: both ends are included, and an
    operand that does not parse makes it false. *)
Theorem between_is_both_bounds (r : row) (f : filter) :
  evaluateFilter r (withCondition "between" f)
  = evaluateFilter r (withCondition "greaterThanOrEqual" f)
    && evaluateFilter r {| column := column f; condition := "lessThanOrEqual";
                           value := value2 f; value2 := value2 f |}.
Proof.
  destruct f as [col cond v v2]. unfold evaluateFilter, withCondition. simpl.
  destruct (JS.isNaN_num (parseFloat (get r col)));
    destruct (JS.isNaN_num (parseFloat v));
    destruct (JS.isNaN_num (parseFloat v2));
    destruct (JS.num_ge (parseFloat (get r col)) (parseFloat v));
    reflexivity.
Qed.

(** X3: when the cell and the value both parse, exactly one of
    [lessThan], [equals] and [greaterThan] holds, and none of them when
    one does not parse; [greaterThanOrEqual] is [greaterThan] or
    [equals], and likewise [lessThanOrEqual]. *)
Theorem comparison_trichotomy (r : row) (f : filter) :
  let holds name := evaluateFilter r (withCondition name f) in
  (Nat.b2n (holds "lessThan") + Nat.b2n (holds "equals")
   + Nat.b2n (holds "greaterThan"))%nat
  = (if JS.isNaN_num (parseFloat (get r (column f)))
        || JS.isNaN_num (parseFloat (value f)) then 0 else 1)%nat
  ∧ holds "greaterThanOrEqual" = (holds "greaterThan" || holds "equals")
  ∧ holds "lessThanOrEqual" = (holds "lessThan" || holds "equals").
Proof.
  destruct f as [col cond v v2]. cbv zeta. unfold evaluateFilter, withCondition. simpl.
  unfold JS.num_lt, JS.num_gt, JS.num_le, JS.num_ge, JS.num_eq, SFltb, SFleb, SFeqb.
  rewrite (SFcompare_swap (parseFloat (get r col)) (parseFloat v)).
  destruct (JS.isNaN_num (parseFloat (get r col))) eqn:Ha; simpl; [now repeat split|].
  destruct (JS.isNaN_num (parseFloat v)) eqn:Hb; simpl; [now repeat split|].
  destruct (SFcompare_defined _ _ Ha Hb) as [c ->].
  now destruct c.
Qed.

Lemma evaluateFilter_unknown (r : row) (f : filter) :
  condition f ∉ knownConditions → evaluateFilter r f = true.
Proof.
  intros Hc. destruct f as [col cond v v2]. unfold evaluateFilter. simpl in *.
  repeat match goal with
  | |- context [String.eqb cond ?name] =>
      let E := fresh "E" in
      destruct (String.eqb cond name) eqn:E;
      [apply String.eqb_eq in E; exfalso; apply Hc; rewrite E;
       apply list_elem_of_In; simpl; tauto|]
  end.
  reflexivity.
Qed.

(** X4: the four folding text conditions ([contains], [doesNotContain],
    [startsWith], [endsWith]) see a text cell and a text value only
    through their lower-case forms. *)
Theorem text_conditions_fold_case (r : row) (f : filter) (a b : string) :
  condition f ∈ foldingConditions →
  get r (column f) = VStr a →
  value f = VStr b →
  evaluateFilter r f
  = evaluateFilter [(column f, VStr (JS.toLowerCase a))]
      {| column := column f; condition := condition f;
         value := VStr (JS.toLowerCase b); value2 := value2 f |}.
Proof.
  destruct f as [col cond v v2]. simpl. intros Hin Ha ->.
  unfold evaluateFilter. simpl. rewrite Ha, String.eqb_refl. unfold cellValueStr. simpl.
  rewrite !toLowerCase_idempotent.
  unfold foldingConditions in Hin.
  repeat (apply elem_of_cons in Hin as [->|Hin]); [..|now apply elem_of_nil in Hin];
    reflexivity.
Qed.

(** X5: the builder shows a value input unless the condition is an
    emptiness check, and a second one only for [between] and
    [betweenDates]; the evaluator reads no more than that: two filters
    with the same column and condition that agree on the inputs shown
    evaluate alike on every row. *)
Theorem evaluateFilter_reads_shown_inputs (r : row) (f g : filter) :
  column g = column f →
  condition g = condition f →
  (Client.needsValue (condition f) = true → value g = value f) →
  (Client.needsSecondValue (condition f) = true → value2 g = value2 f) →
  evaluateFilter r g = evaluateFilter r f.
Proof.
  destruct f as [col cond v v2], g as [col' cond' w w2]. simpl.
  intros -> -> Hv Hv2. unfold evaluateFilter. simpl.
  repeat match goal with
  | |- context [String.eqb cond ?name] =>
      let E := fresh "E" in
      destruct (String.eqb cond name) eqn:E;
      [apply String.eqb_eq in E; subst cond;
       try (rewrite (Hv eq_refl)); try (rewrite (Hv2 eq_refl)); reflexivity|]
  end.
  reflexivity.
Qed.

Lemma trim_blank (s : string) : String.eqb (JS.trim s) "" = blank s.
Proof.
  induction s as [|c s IH]; [reflexivity|].
  unfold JS.trim in *. simpl. destruct (JS.isWhiteSpace c) eqn:Ec; simpl; [exact IH|].
  rewrite Ec. now destruct (JS.trimEnd s).
Qed.

(** X6: [isEmpty] holds of a text cell exactly when the text is made of
    white space only (the empty text included). *)
Theorem isEmpty_of_text (r : row) (f : filter) (s : string) :
  condition f = "isEmpty" →
  get r (column f) = VStr s →
  evaluateFilter r f = blank s.
Proof.
  destruct f as [col cond v v2]. simpl. intros -> Hs.
  unfold evaluateFilter. simpl. rewrite Hs. unfold cellValueStr. simpl.
  rewrite trim_blank. now destruct s.
Qed.

End Conditions.

(** ** The filter engine *)

Lemma List_filter_sublist {A} (f : A → bool) (l : list A) :
  List.filter f l `sublist_of` l.
Proof.
  induction l as [|x l IH]; simpl; [constructor|].
  destruct (f x); [now apply sublist_skip|now apply sublist_cons].
Qed.

Lemma List_filter_sublist_mono {A} (f g : A → bool) (l : list A) :
  (∀ x, f x = true → g x = true) →
  List.filter f l `sublist_of` List.filter g l.
Proof.
  intros Hfg. induction l as [|x l IH]; simpl; [constructor|].
  destruct (f x) eqn:Hf.
  - rewrite (Hfg x Hf). now apply sublist_skip.
  - destruct (g x); [now apply sublist_cons|exact IH].
Qed.

Lemma List_filter_and {A} (f g : A → bool) (l : list A) :
  List.filter g (List.filter f l) = List.filter (fun x => f x && g x) l.
Proof.
  induction l as [|x l IH]; simpl; [reflexivity|].
  destruct (f x); simpl; [destruct (g x); now rewrite IH|exact IH].
Qed.

Lemma List_filter_true {A} (f : A → bool) (l : list A) :
  (∀ x, f x = true) → List.filter f l = l.
Proof.
  intros Hf. induction l as [|x l IH]; simpl; [reflexivity|].
  now rewrite Hf, IH.
Qed.

Lemma slice_sublist {A} (l : list A) (a b : Z) : slice l a b `sublist_of` l.
Proof.
  unfold slice. etransitivity; [apply sublist_take|apply sublist_drop].
Qed.

Section FilterEngine.
Context `{DateHost}.

Lemma applyFiltersWithLogic_combined (data : list row) (f : filter) (filters : list filter)
    (logicOperator : option string) :
  applyFiltersWithLogic data (Some (f :: filters)) logicOperator
  = List.filter (combined (f :: filters) logicOperator) data.
Proof.
  unfold applyFiltersWithLogic, combined.
  now destruct (String.eqb (default "AND" logicOperator) "OR").
Qed.

(** X7: [applyFiltersWithLogic] keeps the rows in their order and adds
    none; with a non-empty condition list a row is kept exactly when it
    satisfies every condition, or under ["OR"] at least one; with an
    empty list every row is kept, under ["OR"] too. *)
Theorem filter_keeps_exactly (data : list row) (filters : list filter)
    (logicOperator : option string) (r : row) :
  applyFiltersWithLogic data (Some filters) logicOperator `sublist_of` data
  ∧ (r ∈ applyFiltersWithLogic data (Some filters) logicOperator
     ↔ r ∈ data
       ∧ (filters = []
          ∨ (if String.eqb (default "AND" logicOperator) "OR"
             then existsb (fun f => evaluateFilter r f) filters
             else forallb (fun f => evaluateFilter r f) filters) = true)).
Proof.
  destruct filters as [|f filters].
  - split; [reflexivity|]. simpl. tauto.
  - rewrite applyFiltersWithLogic_combined. split; [apply List_filter_sublist|].
    rewrite list_elem_of_In, filter_In, <- list_elem_of_In. unfold combined.
    split; [intros [? ?]; split; [assumption|now right]|].
    intros [? [Hnil|?]]; [discriminate Hnil|now split].
Qed.

(** X8: conditions given to [applyFilters] in one list or in two
    successive calls give the same rows, and the order of the conditions
    does not matter. *)
Theorem applyFilters_composes (data : list row) (first second : list filter) :
  applyFilters data (Some (first ++ second))
  = applyFilters (applyFilters data (Some first)) (Some second)
  ∧ applyFilters data (Some (first ++ second))
    = applyFilters data (Some (second ++ first)).
Proof.
  assert (∀ a b : list filter,
            applyFilters data (Some (a ++ b))
            = List.filter (fun r => forallb (fun f => applyFilters_every r f) a
                                    && forallb (fun f => applyFilters_every r f) b) data)
    as Hboth.
  { intros a b. unfold applyFilters.
    destruct (a ++ b) as [|x l] eqn:E.
    - apply app_eq_nil in E as [-> ->]. simpl. symmetry. now apply List_filter_true.
    - rewrite <- E. apply filter_ext. intros r. apply forallb_app. }
  split.
  - rewrite Hboth. unfold applyFilters.
    destruct first as [|f1 l1], second as [|f2 l2]; simpl;
      try (rewrite List_filter_and); try reflexivity.
    + now apply List_filter_true.
    + apply filter_ext. intros r. now rewrite andb_true_r.
  - rewrite !Hboth. apply filter_ext. intros r. apply andb_comm.
Qed.

(** X9: every row kept under ["AND"] is kept under ["OR"], one more
    condition can only remove rows under ["AND"], and, next to at least
    one other condition, only add rows under ["OR"]. *)
Theorem more_conditions (data : list row) (f g : filter) (filters : list filter) :
  applyFiltersWithLogic data (Some filters) (Some "AND")
    `sublist_of` applyFiltersWithLogic data (Some filters) (Some "OR")
  ∧ applyFiltersWithLogic data (Some (f :: filters)) (Some "AND")
      `sublist_of` applyFiltersWithLogic data (Some filters) (Some "AND")
  ∧ applyFiltersWithLogic data (Some (g :: filters)) (Some "OR")
      `sublist_of` applyFiltersWithLogic data (Some (f :: g :: filters)) (Some "OR").
Proof.
  split; [|split].
  - destruct filters as [|x l]; [reflexivity|].
    rewrite !applyFiltersWithLogic_combined. apply List_filter_sublist_mono.
    unfold combined. simpl. intros r.
    destruct (evaluateFilter r x); simpl; [reflexivity|discriminate].
  - destruct filters as [|x l].
    + rewrite applyFiltersWithLogic_combined. apply List_filter_sublist.
    + rewrite !applyFiltersWithLogic_combined. apply List_filter_sublist_mono.
      unfold combined. simpl. intros r. now destruct (evaluateFilter r f).
  - rewrite !applyFiltersWithLogic_combined. apply List_filter_sublist_mono.
    unfold combined. simpl. intros r Hr. rewrite Hr. apply orb_true_r.
Qed.

(** X10: any logic operator other than the exact text ["OR"] means
    "all conditions": [applyFiltersWithLogic] then returns what
    [applyFilters] returns. *)
Theorem other_operators_mean_and (data : list row) (filters : option (list filter))
    (logicOperator : option string) :
  logicOperator ≠ Some "OR" →
  applyFiltersWithLogic data filters logicOperator = applyFilters data filters.
Proof.
  intros Hlo. unfold applyFiltersWithLogic, applyFilters.
  destruct filters as [[|f l]|]; try reflexivity.
  destruct (String.eqb (default "AND" logicOperator) "OR") eqn:E; [|reflexivity].
  apply String.eqb_eq in E. destruct logicOperator as [lo|]; simpl in E.
  - now subst lo.
  - discriminate E.
Qed.

(** X11: a condition name that the [switch] does not know holds of every
    row, so a list of such conditions filters nothing out, under either
    operator and in both filter functions. *)
Theorem unknown_conditions_pass (data : list row) (filters : list filter)
    (logicOperator : option string) :
  Forall (fun f => condition f ∉ knownConditions) filters →
  applyFilters data (Some filters) = data
  ∧ applyFiltersWithLogic data (Some filters) logicOperator = data.
Proof.
  intros Hall. destruct filters as [|f l]; [now split|].
  assert (∀ r, forallb (fun f => evaluateFilter r f) (f :: l) = true) as Hand.
  { intros r. apply forallb_forall. intros x Hx. apply evaluateFilter_unknown.
    rewrite Forall_forall in Hall. apply Hall. now apply list_elem_of_In. }
  split.
  - unfold applyFilters. now apply List_filter_true.
  - rewrite applyFiltersWithLogic_combined. apply List_filter_true. intros r.
    unfold combined. destruct (String.eqb _ _); [|apply Hand].
    simpl. rewrite evaluateFilter_unknown; [reflexivity|].
    now apply Forall_inv in Hall.
Qed.

(** X12: POST /api/filter refuses a body without a data array with
    status 400; otherwise it answers with rows taken from the data in
    their order, [totalRows] counting all rows that pass (whatever the
    page) and never more than [originalRows], the number of rows sent. *)
Theorem filter_route_response (body : FilterRoute.request) :
  match FilterRoute.data body with
  | None => FilterRoute.handler body = Err 400 "Invalid data provided"
  | Some rows =>
      ∃ res, FilterRoute.handler body = Ok res
        ∧ FilterRoute.res_data res `sublist_of` rows
        ∧ FilterRoute.totalRows res
          = Z.of_nat (length (applyFilters rows (FilterRoute.filters body)))
        ∧ FilterRoute.originalRows res = Z.of_nat (length rows)
        ∧ FilterRoute.totalRows res ≤ FilterRoute.originalRows res
  end.
Proof.
  unfold FilterRoute.handler. destruct (FilterRoute.data body) as [rows|]; [|reflexivity].
  assert (applyFilters rows (FilterRoute.filters body) `sublist_of` rows) as Hsub.
  { unfold applyFilters. destruct (FilterRoute.filters body) as [[|f l]|];
      try reflexivity. apply List_filter_sublist. }
  pose proof (sublist_length _ _ Hsub) as Hlen.
  destruct (FilterRoute.page body) as [p|], (FilterRoute.pageSize body) as [k|];
    eexists; (split; [reflexivity|]); simpl; repeat split; try lia; try assumption.
  etransitivity; [apply slice_sublist|exact Hsub].
Qed.

End FilterEngine.

(** ** All the pages *)

Lemma pageNumbers_S (n : nat) : pageNumbers (S n) = pageNumbers n ++ [Z.of_nat (S n)].
Proof. unfold pageNumbers. now rewrite seq_S, map_app. Qed.

Lemma concat_slices {A} (rows : list A) (k : Z) (n : nat) :
  1 ≤ k →
  concat (map (fun p => slice rows ((p - 1) * k) ((p - 1) * k + k)) (pageNumbers n))
  = take (n * Z.to_nat k) rows.
Proof.
  intros Hk. induction n as [|n IH]; [reflexivity|].
  rewrite pageNumbers_S, map_app, concat_app, IH. simpl. rewrite app_nil_r.
  rewrite slice_from_start by nia.
  replace (Z.to_nat ((Z.of_nat (S n) - 1) * k)) with (n * Z.to_nat k)%nat by nia.
  replace ((Z.of_nat (S n) - 1) * k + k - (Z.of_nat (S n) - 1) * k) with k by lia.
  rewrite take_take_drop. f_equal. lia.
Qed.

(** X13: for a page size of at least 1, [totalPages] is a page count
    [t] such that the pages 1 to [t], one after the other, are exactly
    the rows, and every later page is empty; the table component of the
    client cuts its pages in the same way. *)
Theorem pages_partition {A} (rows : list A) (k : Z) :
  1 ≤ k →
  ∃ t : nat,
    totalPages (snd (paginate rows 1 k)) = Some (Z.of_nat t)
    ∧ concat (map (fun p => fst (paginate rows p k)) (pageNumbers t)) = rows
    ∧ (∀ p, Z.of_nat t < p → fst (paginate rows p k) = [])
    ∧ Client.totalPages rows k = Some (Z.of_nat t)
    ∧ concat (map (fun p => Client.paginatedData rows p k) (pageNumbers t)) = rows.
Proof.
  intros Hk.
  destruct (Math_ceil_div_spec (Z.of_nat (length rows)) k ltac:(lia)) as (t & Ht & Hlo & Hhi).
  assert (0 ≤ t) as Ht0 by nia.
  exists (Z.to_nat t). rewrite Z2Nat.id by assumption.
  assert (concat (map (fun p => slice rows ((p - 1) * k) ((p - 1) * k + k))
                      (pageNumbers (Z.to_nat t))) = rows) as Hall.
  { rewrite concat_slices by assumption. apply take_ge. nia. }
  split; [exact Ht|]. split; [exact Hall|]. split; [|split; [exact Ht|exact Hall]].
  intros p Hp. unfold paginate; simpl.
  rewrite slice_from_start by nia. rewrite drop_ge by nia. apply take_nil.
Qed.

Lemma pages_partition_witness :
  1 ≤ 2 ∧
  ∃ t : nat,
    totalPages (snd (paginate [10; 20; 30; 40; 50] 1 2)) = Some (Z.of_nat t)
    ∧ concat (map (fun p => fst (paginate [10; 20; 30; 40; 50] p 2)) (pageNumbers t))
      = [10; 20; 30; 40; 50]
    ∧ (∀ p, Z.of_nat t < p → fst (paginate [10; 20; 30; 40; 50] p 2) = [])
    ∧ Client.totalPages [10; 20; 30; 40; 50] 2 = Some (Z.of_nat t)
    ∧ concat (map (fun p => Client.paginatedData [10; 20; 30; 40; 50] p 2) (pageNumbers t))
      = [10; 20; 30; 40; 50].
Proof.
  split; [lia|]. exact (pages_partition [10; 20; 30; 40; 50] 2 ltac:(lia)).
Defined.

(** ** Uploads and column types *)

Lemma lookup_foldl_insert {V} (f : string → V) (l : list string) (m : gmap string V)
    (k : string) :
  foldl (fun types header => <[header := f header]> types) m l !! k
  = if includes l k then Some (f k) else m !! k.
Proof.
  revert m. induction l as [|h l IH]; intros m; [reflexivity|].
  cbn [foldl]. rewrite IH.
  change (includes (h :: l) k) with (String.eqb k h || includes l k).
  destruct (includes l k); [now rewrite orb_true_r|]. rewrite orb_false_r.
  destruct (String.eqb k h) eqn:E.
  - apply String.eqb_eq in E; subst. apply lookup_insert_eq.
  - apply lookup_insert_ne. intros ->. now rewrite String.eqb_refl in E.
Qed.

Lemma pattern_length (pattern : list Upload.patItem) (s : string) :
  Upload.test pattern s = true → String.length s = length pattern.
Proof.
  revert s. induction pattern as [|item pattern IH]; intros [|c s];
    try (destruct item); simpl; try discriminate; try reflexivity;
    intros Ht; apply andb_true_iff in Ht as [_ Ht]; f_equal; now apply IH.
Qed.

Section Uploads.
Context `{DateHost}.

(** X14: uploading an empty sheet is refused with status 400 and the
    text "Excel file is empty"; a sheet with rows is answered with those
    rows, their count, the keys of the first row as header, and a column
    type for exactly the header columns. *)
Theorem upload_of_a_sheet (sheet : list row) :
  match sheet with
  | [] => UploadRoute.handler (Some (inr sheet)) = Err 400 "Excel file is empty"
  | first :: _ =>
      ∃ p, UploadRoute.handler (Some (inr sheet)) = Ok p
        ∧ Upload.headers p = keys first
        ∧ Upload.data p = sheet
        ∧ Upload.totalRows p = Z.of_nat (length sheet)
        ∧ ∀ h, Upload.columnTypes p !! h
               = if includes (keys first) h
                 then Some (Upload.columnType sheet (Upload.sampleSize sheet) h)
                 else None
  end.
Proof.
  destruct sheet as [|first rest]; [reflexivity|].
  eexists. split; [reflexivity|]. simpl. repeat split.
  intros h. now rewrite lookup_foldl_insert, lookup_empty.
Qed.

(** X15: in a sheet of fewer than ten rows no row is sampled, and every
    column is typed as text, whatever it holds. *)
Theorem small_sheets_are_text (sheet : list row) :
  (length sheet < 10)%nat →
  match Upload.parseExcel sheet with
  | inl _ => sheet = []
  | inr p => Forall (fun h => Upload.columnTypes p !! h = Some TText) (Upload.headers p)
  end.
Proof.
  intros Hlen. destruct sheet as [|first rest]; [reflexivity|]. simpl.
  apply Forall_forall. intros h Hh. rewrite lookup_foldl_insert.
  apply includes_true in Hh. rewrite Hh. f_equal.
  apply columnType_empty_sample. now apply sampleValues_small_sheet.
Qed.

Lemma foldl_increment (sample : list val) (counts : Upload.typeCounts) :
  let final := foldl (fun counts val => Upload.increment counts (Upload.detectDataType val))
                     counts sample in
  Upload.text final = (Upload.text counts + countType TText sample)%nat
  ∧ Upload.number final = (Upload.number counts + countType TNumber sample)%nat
  ∧ Upload.date final = (Upload.date counts + countType TDate sample)%nat.
Proof.
  cbv zeta. revert counts. induction sample as [|v sample IH]; intros counts.
  - unfold countType; simpl. lia.
  - cbn [foldl]. destruct (IH (Upload.increment counts (Upload.detectDataType v)))
      as (Ht & Hn & Hd).
    rewrite Ht, Hn, Hd. unfold countType. simpl.
    destruct (Upload.detectDataType v); simpl; lia.
Qed.

(** X16: a type detected for more of the sampled non-empty values than
    each other type is the type of the column. *)
Theorem plurality_type (data : list row) (sampleSize : Z) (header : string)
    (t : dataType) :
  (∀ t', t' ≠ t →
     (countType t' (Upload.sampleValues data sampleSize header)
      < countType t (Upload.sampleValues data sampleSize header))%nat) →
  Upload.columnType data sampleSize header = t.
Proof.
  intros Hmost. unfold Upload.columnType.
  destruct (Upload.sampleValues data sampleSize header) as [|v sample] eqn:E.
  - destruct t; try reflexivity;
      pose proof (Hmost TText ltac:(discriminate)) as Hlt;
      unfold countType in Hlt; simpl in Hlt; lia.
  - destruct (foldl_increment (v :: sample)
                {| Upload.text := 0; Upload.number := 0; Upload.date := 0 |})
      as (Ht & Hn & Hd).
    cbv zeta in Ht, Hn, Hd. rewrite Ht, Hn, Hd. simpl.
    destruct t.
    + pose proof (Hmost TNumber ltac:(discriminate)).
      pose proof (Hmost TDate ltac:(discriminate)).
      destruct (Nat.leb_spec (countType TDate (v :: sample)) (countType TNumber (v :: sample)));
        destruct (Nat.leb_spec (countType TText (v :: sample)) (countType TNumber (v :: sample)));
        destruct (Nat.leb_spec (countType TText (v :: sample)) (countType TDate (v :: sample)));
        simpl; try reflexivity; lia.
    + pose proof (Hmost TText ltac:(discriminate)).
      pose proof (Hmost TDate ltac:(discriminate)).
      destruct (Nat.leb_spec (countType TDate (v :: sample)) (countType TNumber (v :: sample)));
        destruct (Nat.leb_spec (countType TText (v :: sample)) (countType TNumber (v :: sample)));
        simpl; try reflexivity; lia.
    + pose proof (Hmost TText ltac:(discriminate)).
      pose proof (Hmost TNumber ltac:(discriminate)).
      destruct (Nat.leb_spec (countType TDate (v :: sample)) (countType TNumber (v :: sample)));
        destruct (Nat.leb_spec (countType TText (v :: sample)) (countType TNumber (v :: sample)));
        destruct (Nat.leb_spec (countType TText (v :: sample)) (countType TDate (v :: sample)));
        simpl; try reflexivity; lia.
Qed.

End Uploads.

(** ** More on the join *)

Lemma size_list_to_set_le (l : list string) :
  (size (list_to_set l : gset string) ≤ length l)%nat.
Proof.
  induction l as [|x l IH].
  - change (size (∅ : gset string) ≤ 0)%nat. now rewrite size_empty.
  - change (size ({[x]} ∪ list_to_set l : gset string) ≤ S (length l))%nat.
    rewrite size_union_alt, size_singleton.
    assert (size (list_to_set l ∖ {[x]} : gset string) ≤ size (list_to_set l : gset string))%nat
      by (apply subseteq_size; set_solver).
    lia.
Qed.

Lemma List_filter_length {A} (f : A → bool) (l : list A) :
  (length (List.filter f l) ≤ length l)%nat.
Proof. apply sublist_length, List_filter_sublist. Qed.

Lemma flat_map_sublist {A B} (f g : A → list B) (l : list A) :
  (∀ x, f x `sublist_of` g x) → flat_map f l `sublist_of` flat_map g l.
Proof.
  intros Hfg. induction l as [|x l IH]; simpl; [constructor|].
  now apply sublist_app.
Qed.

Lemma keys_set_subseteq (r : row) (k : string) (v : val) (x : string) :
  x ∈ keys (set r k v) → x ∈ keys r ∨ x = k.
Proof.
  induction r as [|[k' w] r IH]; simpl.
  - intros Hx. apply list_elem_of_singleton in Hx. now right.
  - destruct (String.eqb k' k); simpl; intros Hx; apply elem_of_cons in Hx as [->|Hx].
    + left. apply elem_of_cons. now left.
    + left. apply elem_of_cons. now right.
    + left. apply elem_of_cons. now left.
    + destruct (IH Hx) as [?|?]; [left; apply elem_of_cons; now right|now right].
Qed.

Lemma keys_foldl_set_subseteq (cellOf : string → val) (R : list string) (acc : row)
    (x : string) :
  x ∈ keys (foldl (fun mergedRow header => set mergedRow (prefixed header) (cellOf header))
                  acc R) →
  x ∈ keys acc ∨ x ∈ map prefixed R.
Proof.
  revert acc. induction R as [|h R IH]; intros acc; cbn [foldl map]; [now left|].
  intros Hx. destruct (IH _ Hx) as [Hx'|Hx'].
  - destruct (keys_set_subseteq _ _ _ _ Hx') as [? | ->]; [now left|].
    right. apply elem_of_cons. now left.
  - right. apply elem_of_cons. now right.
Qed.

Lemma checkKeyColumns_passes (R P : list string) (keyCols : list keyColumn) :
  checkKeyColumns R P keyCols = None
  ↔ Forall (fun k => refColumn k ∈ R ∧ primaryColumn k ∈ P) keyCols.
Proof.
  induction keyCols as [|k rest IH]; cbn [checkKeyColumns].
  - split; [constructor|reflexivity].
  - destruct (includes R (refColumn k)) eqn:ER; simpl.
    + destruct (includes P (primaryColumn k)) eqn:EP; simpl.
      * apply includes_true in ER, EP. rewrite IH. split.
        -- intros Hrest. now constructor.
        -- intros Hall. now apply Forall_inv_tail in Hall.
      * apply includes_false in EP. split; [discriminate|].
        intros Hall. apply Forall_inv in Hall. tauto.
    + apply includes_false in ER. split; [discriminate|].
      intros Hall. apply Forall_inv in Hall. tauto.
Qed.

Section JoinExtras.
Context `{DateHost}.

(** X18: the route answers a join request (rather than refusing it)
    exactly when both sets have a row, there is a key column, and every
    key column is a key of the first row of its side. *)
Theorem join_request_accepted (body : request) :
  (∃ res, handler body = Ok res)
  ↔ ∃ refFirst refRest primaryFirst primaryRest keyCol keyCols,
      referenceData body = Some (refFirst :: refRest)
      ∧ primaryData body = Some (primaryFirst :: primaryRest)
      ∧ keyColumns body = Some (keyCol :: keyCols)
      ∧ Forall (fun k => refColumn k ∈ keys refFirst ∧ primaryColumn k ∈ keys primaryFirst)
               (keyCol :: keyCols).
Proof.
  unfold handler, validate.
  destruct (referenceData body) as [[|rf rr]|];
    try (split; [intros [res Hres]; discriminate Hres
                |intros (?&?&?&?&?&?&Hr&_); discriminate Hr]).
  destruct (primaryData body) as [[|pf pr]|];
    try (split; [intros [res Hres]; discriminate Hres
                |intros (?&?&?&?&?&?&_&Hp&_); discriminate Hp]).
  destruct (keyColumns body) as [[|kc kcs]|];
    try (split; [intros [res Hres]; discriminate Hres
                |intros (?&?&?&?&?&?&_&_&Hk&_); discriminate Hk]).
  destruct (checkKeyColumns (keys rf) (keys pf) (kc :: kcs)) as [error|] eqn:Hcheck.
  - split; [intros [res Hres]; discriminate Hres|].
    intros (?&?&?&?&?&?&Hr&Hp&Hk&Hall).
    injection Hr as <- <-. injection Hp as <- <-. injection Hk as <- <-.
    apply checkKeyColumns_passes in Hall. congruence.
  - split; [|intros _; eexists; reflexivity].
    intros _. exists rf, rr, pf, pr, kc, kcs. repeat split.
    now apply checkKeyColumns_passes.
Qed.

Lemma filterReference_sublist (referenceData : list row)
    (filterConditions : option (list filter)) (logicOperator : string) :
  filterReference referenceData filterConditions logicOperator `sublist_of` referenceData.
Proof.
  unfold filterReference. destruct filterConditions as [[|f l]|]; try reflexivity.
  rewrite applyFiltersWithLogic_combined. apply List_filter_sublist.
Qed.

(** X19: without ["left"], every row of the join is the merge of a
    primary row with a reference row that passed the filter conditions
    and has the same composite key, and every such pair gives a row:
    nothing else is ever emitted. *)
Theorem inner_join_rows (input : validated) (filterConditions : option (list filter))
    (jt logicOperator : string) (joined : row) :
  jt ≠ "left" →
  joined ∈ data (respond input filterConditions jt logicOperator None None)
  ↔ ∃ primaryRow refRow,
      primaryRow ∈ v_primaryData input
      ∧ refRow ∈ filterReference (v_referenceData input) filterConditions logicOperator
      ∧ refKey (v_keyColumns input) refRow = primaryKey (v_keyColumns input) primaryRow
      ∧ joined = mergeMatch (refHeaders input) (primaryHeaders input) primaryRow refRow.
Proof.
  intros Hjt. rewrite data_respond, list_elem_of_In, in_flat_map.
  assert (String.eqb jt "left" = false) as Hnl by now apply String.eqb_neq.
  assert (∀ p, joinedFor (refHeaders input) (primaryHeaders input) (v_keyColumns input) jt
                 (filterReference (v_referenceData input) filterConditions logicOperator) p
               = map (mergeMatch (refHeaders input) (primaryHeaders input) p)
                     (matchesOf (v_keyColumns input)
                        (filterReference (v_referenceData input) filterConditions
                                         logicOperator) p)) as Hfor.
  { intros p. unfold joinedFor. rewrite Hnl. now destruct (matchesOf _ _ p). }
  split.
  - intros (p & Hp & Hin). rewrite Hfor in Hin. apply in_map_iff in Hin as (r & <- & Hr).
    unfold matchesOf, withKey in Hr. apply filter_In in Hr as [Hr Hk].
    apply String.eqb_eq in Hk. exists p, r.
    repeat split; try assumption; now apply list_elem_of_In.
  - intros (p & r & Hp & Hr & Hk & ->). exists p. split; [now apply list_elem_of_In|].
    rewrite Hfor. apply in_map. unfold matchesOf, withKey. apply filter_In.
    split; [now apply list_elem_of_In|now apply String.eqb_eq].
Qed.

(** X20: the rows of an inner join are among the rows of the left join
    of the same request, in the same order. *)
Theorem inner_within_left (input : validated) (filterConditions : option (list filter))
    (logicOperator : string) :
  data (respond input filterConditions "inner" logicOperator None None)
    `sublist_of` data (respond input filterConditions "left" logicOperator None None).
Proof.
  rewrite !data_respond. apply flat_map_sublist. intros p. unfold joinedFor. simpl.
  destruct (matchesOf _ _ p); [apply sublist_nil_l|reflexivity].
Qed.

End JoinExtras.

Section JoinCounters.
Context `{DateHost}.

Lemma joinStep_matched (keyColumns : list keyColumn) (filtered : list row)
    (R P : list string) (jt : string) (state : list row * gset string) (p : row) :
  snd (joinStep (buildReferenceMap keyColumns filtered) R P keyColumns jt state p)
  = list_to_set (matchedKeys keyColumns filtered [p]) ∪ snd state.
Proof.
  destruct state as [joined matched]. unfold joinStep, matchedKeys. simpl.
  rewrite lookup_buildReferenceMap.
  destruct (withKey keyColumns (primaryKey keyColumns p) filtered); simpl.
  - destruct (String.eqb jt "left"); simpl; set_solver.
  - set_solver.
Qed.

Lemma joinRows_matched (keyColumns : list keyColumn) (filtered : list row)
    (R P : list string) (jt : string) (primaryData : list row)
    (state : list row * gset string) :
  snd (foldl (joinStep (buildReferenceMap keyColumns filtered) R P keyColumns jt)
             state primaryData)
  = list_to_set (matchedKeys keyColumns filtered primaryData) ∪ snd state.
Proof.
  revert state. induction primaryData as [|p rest IH]; intros state.
  - simpl. set_solver.
  - cbn [foldl]. rewrite IH, joinStep_matched. unfold matchedKeys. simpl.
    destruct (withKey keyColumns (primaryKey keyColumns p) filtered); simpl; set_solver.
Qed.

Lemma matchedKeys_length (keyColumns : list keyColumn) (filtered primaryData : list row)
    (R P : list string) (jt : string) :
  (length (matchedKeys keyColumns filtered primaryData)
   ≤ length (flat_map (joinedFor R P keyColumns jt filtered) primaryData))%nat.
Proof.
  unfold matchedKeys. induction primaryData as [|p rest IH]; simpl; [lia|].
  rewrite length_app. unfold joinedFor at 1, matchesOf.
  destruct (withKey keyColumns (primaryKey keyColumns p) filtered); simpl.
  - lia.
  - rewrite length_map. lia.
Qed.

Lemma joinedFor_length (keyColumns : list keyColumn) (filtered : list row)
    (R P : list string) (jt : string) (p : row) :
  (length (joinedFor R P keyColumns jt filtered p) ≤ Nat.max 1 (length filtered))%nat.
Proof.
  unfold joinedFor. pose proof (List_filter_length
    (fun refRow => String.eqb (refKey keyColumns refRow) (primaryKey keyColumns p)) filtered)
    as Hlen.
  unfold matchesOf, withKey.
  destruct (List.filter _ filtered) eqn:E.
  - destruct (String.eqb jt "left"); simpl; lia.
  - rewrite length_map. lia.
Qed.

Lemma flat_map_length_bound {A B} (f : A → list B) (l : list A) (bound : nat) :
  (∀ x, length (f x) ≤ bound)%nat →
  (length (flat_map f l) ≤ length l * bound)%nat.
Proof.
  intros Hf. induction l as [|x l IH]; simpl; [lia|].
  rewrite length_app. specialize (Hf x). lia.
Qed.

Lemma respond_counters (input : validated) (filterConditions : option (list filter))
    (jt logicOperator : string) (page pageSize : option Z) :
  let filtered := filterReference (v_referenceData input) filterConditions logicOperator in
  let res := respond input filterConditions jt logicOperator page pageSize in
  originalPrimaryRows res = Z.of_nat (length (v_primaryData input))
  ∧ filteredRefRows res = Z.of_nat (length filtered)
  ∧ totalRows res
    = Z.of_nat (length (flat_map (joinedFor (refHeaders input) (primaryHeaders input)
                                    (v_keyColumns input) jt filtered) (v_primaryData input)))
  ∧ matchedRows res
    = Z.of_nat (size (list_to_set (matchedKeys (v_keyColumns input) filtered
                                     (v_primaryData input)) : gset string)).
Proof.
  cbv zeta.
  set (filtered := filterReference (v_referenceData input) filterConditions logicOperator).
  pose proof (joinRows_joinedFor (refHeaders input) (primaryHeaders input)
                (v_keyColumns input) jt filtered (v_primaryData input)) as Hrows.
  pose proof (joinRows_matched (v_keyColumns input) filtered (refHeaders input)
                (primaryHeaders input) jt (v_primaryData input) ([], ∅)) as Hkeys.
  unfold respond. fold filtered. unfold joinRows in Hrows, Hkeys |- *.
  destruct (foldl _ _ (v_primaryData input)) as [joined matched].
  simpl in Hrows, Hkeys. subst joined matched.
  replace (list_to_set (matchedKeys (v_keyColumns input) filtered (v_primaryData input))
             ∪ (∅ : gset string))
    with (list_to_set (matchedKeys (v_keyColumns input) filtered (v_primaryData input))
            : gset string) by set_solver.
  destruct page as [pg|], pageSize as [ps|]; repeat split.
Qed.

(** X21: the counters of a join response, with or without paging and for
    every join type: [originalPrimaryRows] is the number of primary rows,
    [filteredRefRows] is at most the number of reference rows,
    [matchedRows] (the distinct keys matched) is at most the number of
    primary rows, at most [totalRows], and the same for every join type,
    and [totalRows] is at most one row per pair of a primary row and a
    filtered reference row (one row per primary row when no reference
    row is left). *)
Theorem join_counters (input : validated) (filterConditions : option (list filter))
    (jt logicOperator : string) (page pageSize : option Z) :
  let res := respond input filterConditions jt logicOperator page pageSize in
  originalPrimaryRows res = Z.of_nat (length (v_primaryData input))
  ∧ 0 ≤ filteredRefRows res ≤ Z.of_nat (length (v_referenceData input))
  ∧ 0 ≤ matchedRows res ≤ originalPrimaryRows res
  ∧ matchedRows res ≤ totalRows res
  ∧ totalRows res ≤ originalPrimaryRows res * Z.max 1 (filteredRefRows res)
  ∧ totalRows res
    = Z.of_nat (length (data (respond input filterConditions jt logicOperator None None)))
  ∧ matchedRows res
    = matchedRows (respond input filterConditions "inner" logicOperator None None).
Proof.
  cbv zeta.
  destruct (respond_counters input filterConditions jt logicOperator page pageSize)
    as (Ho & Hf & Ht & Hm).
  destruct (respond_counters input filterConditions "inner" logicOperator None None)
    as (_ & _ & _ & Hm').
  cbv zeta in Ho, Hf, Ht, Hm, Hm'. rewrite Ho, Hf, Ht, Hm, Hm', data_respond.
  set (filtered := filterReference (v_referenceData input) filterConditions logicOperator).
  pose proof (sublist_length _ _
                (filterReference_sublist (v_referenceData input) filterConditions
                   logicOperator)) as Hfiltered.
  fold filtered in Hfiltered.
  pose proof (size_list_to_set_le
                (matchedKeys (v_keyColumns input) filtered (v_primaryData input))) as Hsize.
  pose proof (matchedKeys_length (v_keyColumns input) filtered (v_primaryData input)
                (refHeaders input) (primaryHeaders input) jt) as Hmatched.
  pose proof (List_filter_length
                (fun k => match withKey (v_keyColumns input) k filtered with
                          | [] => false | _ => true end)
                (map (primaryKey (v_keyColumns input)) (v_primaryData input))) as Hprim.
  rewrite length_map in Hprim. fold (matchedKeys (v_keyColumns input) filtered
                                       (v_primaryData input)) in Hprim.
  pose proof (flat_map_length_bound
                (joinedFor (refHeaders input) (primaryHeaders input) (v_keyColumns input)
                           jt filtered)
                (v_primaryData input) (Nat.max 1 (length filtered))
                (joinedFor_length _ _ _ _ _)) as Htotal.
  split; [reflexivity|]. split; [lia|]. split; [lia|]. split; [lia|].
  split; [nia|]. split; reflexivity.
Qed.

(** X22: when no primary row has a column outside the primary header,
    every column of every row of the join is listed in the response
    header. *)
Theorem header_covers_rows (input : validated) (filterConditions : option (list filter))
    (jt logicOperator : string) :
  Forall (fun p => keys p ⊆ primaryHeaders input) (v_primaryData input) →
  Forall (fun joined =>
            keys joined
            ⊆ headers (respond input filterConditions jt logicOperator None None))
         (data (respond input filterConditions jt logicOperator None None)).
Proof.
  intros Huniform. rewrite headers_respond, data_respond.
  apply Forall_forall. intros joined Hin.
  apply list_elem_of_In, in_flat_map in Hin as (p & Hp & Hin).
  rewrite Forall_forall in Huniform. specialize (Huniform p ltac:(now apply list_elem_of_In)).
  assert (∀ cellOf x,
            x ∈ keys (foldl (fun mergedRow header =>
                               set mergedRow (prefixed header) (cellOf header))
                            p (refHeaders input)) →
            x ∈ primaryHeaders input ++ map prefixed (refHeaders input)) as Hkeys.
  { intros cellOf x Hx. apply elem_of_app.
    destruct (keys_foldl_set_subseteq _ _ _ _ Hx) as [?|?]; [left; now apply Huniform|now right]. }
  unfold joinedFor in Hin.
  destruct (matchesOf _ _ p) as [|m ms].
  - destruct (String.eqb jt "left"); [|contradiction].
    destruct Hin as [<-|[]]. rewrite mergeUnmatched_foldl. intros x. apply Hkeys.
  - apply in_map_iff in Hin as (r & <- & _). rewrite mergeMatch_foldl. intros x. apply Hkeys.
Qed.

(** X23: a key column that the client detects from two uploaded sheets
    (of cells as the sheet reader gives them, which the JSON bodies
    between server and client carry unchanged) is accepted by the join:
    the request that the client then sends is answered, with the main
    sheet's header followed by the prefixed reference header. *)
Theorem detected_key_is_accepted (refSheet mainSheet : list row)
    (referenceData mainData : Upload.parsed) (keyColumn : keyColumn)
    (filters : list Client.uiFilter) :
  sheetRows refSheet →
  sheetRows mainSheet →
  Upload.parseExcel refSheet = inr referenceData →
  Upload.parseExcel mainSheet = inr mainData →
  Client.autoDetectKeyColumn referenceData mainData = Some keyColumn →
  ∃ res, handler (Client.referenceFilterBody referenceData mainData keyColumn filters)
         = Ok res
    ∧ headers res
      = Upload.headers mainData ++ map prefixed (Upload.headers referenceData).
Proof.
  intros _ _ Href Hmain Hkey.
  destruct refSheet as [|rf rr]; [discriminate Href|].
  destruct mainSheet as [|mf mr]; [discriminate Hmain|].
  injection Href as <-. injection Hmain as <-.
  unfold Client.autoDetectKeyColumn in Hkey. simpl in Hkey.
  destruct (find _ _) as [detected|] eqn:Hfind; [|discriminate Hkey].
  destruct (String.eqb detected ""); [discriminate Hkey|]. injection Hkey as <-.
  apply find_some in Hfind as [Hcommon _]. apply filter_In in Hcommon as [Hinref Hinmain].
  assert (includes (keys rf) detected = true) as Hr.
  { apply includes_true. now apply list_elem_of_In. }
  unfold handler, validate, Client.referenceFilterBody. simpl.
  rewrite Hr, Hinmain. simpl. eexists. split; [reflexivity|].
  apply headers_respond.
Qed.

End JoinCounters.

(** ** Exports *)

Lemma strlen_takeChars (n : nat) (s : string) :
  JS.strlen (JS.takeChars n s) = Z.min (Z.of_nat n) (JS.strlen s).
Proof.
  unfold JS.strlen. revert s. induction n as [|n IH]; intros [|c s];
    cbn [JS.takeChars String.length]; try lia.
  specialize (IH s). lia.
Qed.

Lemma validHeaderValue_forallb (value : string) :
  ExcelExport.validHeaderValue value
  = forallb ExcelExport.validHeaderChar (list_ascii_of_string value).
Proof. induction value as [|c value IH]; simpl; [reflexivity|now rewrite IH]. Qed.

Lemma validHeaderValue_app (a b : string) :
  ExcelExport.validHeaderValue (a +:+ b)
  = ExcelExport.validHeaderValue a && ExcelExport.validHeaderValue b.
Proof.
  induction a as [|c a IH]; simpl; [reflexivity|]. now rewrite IH, andb_assoc.
Qed.

Lemma validHeaderValue_attachment (filename : string) :
  ExcelExport.validHeaderValue (ExcelExport.attachment filename)
  = forallb ExcelExport.validHeaderChar (list_ascii_of_string filename).
Proof.
  unfold ExcelExport.attachment. rewrite !validHeaderValue_app.
  rewrite <- validHeaderValue_forallb.
  assert (ExcelExport.validHeaderValue "attachment; filename=" = true) as -> by reflexivity.
  assert (ExcelExport.validHeaderValue quote = true) as -> by reflexivity.
  now rewrite andb_true_r.
Qed.

Section Exports.
Context `{DateHost}.

Lemma strlen_cellText (v : val) : JS.strlen (ExcelExport.cellText v) ≤ 32767.
Proof.
  unfold ExcelExport.cellText. destruct (isNullish v); [unfold JS.strlen; simpl; lia|].
  destruct (Z.ltb_spec 32767 (JS.strlen (ToString v))); [|assumption].
  rewrite strlen_takeChars. lia.
Qed.

Lemma addBatches_all (fuel : nat) (data : list row) (headers : list string)
    (batchSize i : Z) (written : list (list string)) (processed : Z) :
  1 ≤ batchSize → 0 ≤ i →
  Z.of_nat (length data) - i ≤ Z.of_nat fuel →
  ExcelExport.addBatches fuel data headers batchSize i (written, processed)
  = (written ++ map (ExcelExport.rowData headers) (drop (Z.to_nat i) data),
     processed + Z.max 0 (Z.of_nat (length data) - i)).
Proof.
  intros Hb. revert i written processed.
  induction fuel as [|fuel IH]; intros i written processed Hi Hfuel; cbn [ExcelExport.addBatches].
  - rewrite drop_ge by lia. simpl. rewrite app_nil_r. f_equal. lia.
  - destruct (Z.ltb_spec i (Z.of_nat (length data))) as [Hlt|Hge].
    + cbn [fst snd]. rewrite IH by lia.
      rewrite slice_from_start by lia.
      replace (Z.to_nat (i + batchSize - i)) with (Z.to_nat batchSize) by lia.
      replace (Z.to_nat (i + batchSize)) with (Z.to_nat i + Z.to_nat batchSize)%nat by lia.
      rewrite <- drop_drop, <- app_assoc, <- map_app, take_drop.
      f_equal. rewrite length_take, length_drop. lia.
    + rewrite drop_ge by lia. simpl. rewrite app_nil_r. f_equal. lia.
Qed.

(** X24: the Excel export refuses a body without a data array or a
    headers array with status 400.  Otherwise, when the file name has
    no character that a response header cannot carry (the default name
    has none), it writes the header row and then one row per data row,
    in order and each exactly once, whatever the batch size; every row
    has one cell per header and no cell is longer than 32767
    characters; every column width lies between 10 and 30.  With such a
    character in the file name the route answers with status 500 and
    the text of the error that setting the header throws. *)
Theorem excel_export_rows (body : ExcelExport.request) :
  match ExcelExport.data body, ExcelExport.headers body with
  | Some data, Some headers =>
      let filename := default "filtered_data.xlsx" (ExcelExport.filename body) in
      ExcelExport.validHeaderValue "filtered_data.xlsx" = true
      ∧ if forallb ExcelExport.validHeaderChar (list_ascii_of_string filename)
        then
          ∃ wb, ExcelExport.handler body = Ok wb
            ∧ ExcelExport.rows wb = headers :: map (ExcelExport.rowData headers) data
            ∧ ExcelExport.processedRows wb = Z.of_nat (length data)
            ∧ ExcelExport.disposition wb = ExcelExport.attachment filename
            ∧ Forall (fun cells =>
                        length cells = length headers
                        ∧ Forall (fun cell => JS.strlen cell ≤ 32767) cells)
                     (map (ExcelExport.rowData headers) data)
            ∧ Forall (fun width => 10 ≤ width ≤ 30) (ExcelExport.widths wb)
        else
          ExcelExport.handler body
          = Err 500 (ExcelExport.invalidHeader "Content-Disposition")
  | _, _ => ExcelExport.handler body = Err 400 "Invalid data provided"
  end.
Proof.
  unfold ExcelExport.handler.
  destruct (ExcelExport.data body) as [data|]; [|reflexivity].
  destruct (ExcelExport.headers body) as [headers|]; [|reflexivity].
  cbv zeta. split; [reflexivity|].
  rewrite addBatches_all; try lia;
    [|unfold ExcelExport.BATCH_SIZE; destruct (1000000 <? _); lia].
  rewrite validHeaderValue_attachment.
  destruct (forallb _ _); [|reflexivity].
  eexists. split; [reflexivity|]. cbn [ExcelExport.rows ExcelExport.processedRows
                                       ExcelExport.widths ExcelExport.disposition].
  split; [reflexivity|]. split; [lia|]. split; [reflexivity|]. split.
  - apply Forall_forall. intros cells Hin.
    apply list_elem_of_In, in_map_iff in Hin as (r & <- & _).
    unfold ExcelExport.rowData. rewrite length_map. split; [reflexivity|].
    apply Forall_forall. intros cell Hcell.
    apply list_elem_of_In, in_map_iff in Hcell as (h & <- & _). apply strlen_cellText.
  - apply Forall_forall. intros width Hin.
    apply list_elem_of_In, in_map_iff in Hin as (h & <- & _).
    unfold ExcelExport.columnWidth. lia.
Qed.

(** X25: the PDF export refuses a body without a data array or a
    headers array with status 400.  Otherwise, when the file name has
    no character that a response header cannot carry (the default name
    has none), it shows the first [maxRows] rows (1000 unless the
    request says otherwise), or all rows when there are fewer, and adds
    the note about the full dataset exactly when rows were left out;
    header cells are cut at 15 and body cells at 20 characters.  With
    such a character in the file name the route answers with status 500
    and the text of the error that setting the header throws. *)
Theorem pdf_export_rows (body : PdfExport.request) :
  match PdfExport.data body, PdfExport.headers body with
  | Some data, Some headers =>
      let filename := default "filtered_data.pdf" (PdfExport.filename body) in
      ExcelExport.validHeaderValue "filtered_data.pdf" = true
      ∧ if forallb ExcelExport.validHeaderChar (list_ascii_of_string filename)
        then
          ∃ doc, PdfExport.handler body = Ok doc
            ∧ PdfExport.disposition doc = ExcelExport.attachment filename
            ∧ (0 ≤ default 1000 (PdfExport.maxRows body) →
               PdfExport.bodyCells doc
               = map (fun r => map (PdfExport.cellValue r) headers)
                     (take (Z.to_nat (default 1000 (PdfExport.maxRows body))) data)
               ∧ (PdfExport.note doc = None
                  ↔ Z.of_nat (length data) ≤ default 1000 (PdfExport.maxRows body)))
            ∧ Forall (fun cell => JS.strlen cell ≤ 15) (PdfExport.headerCells doc)
            ∧ Forall (Forall (fun cell => JS.strlen cell ≤ 20)) (PdfExport.bodyCells doc)
        else
          PdfExport.handler body
          = Err 500 (ExcelExport.invalidHeader "Content-Disposition")
  | _, _ => PdfExport.handler body = Err 400 "Invalid data provided"
  end.
Proof.
  unfold PdfExport.handler.
  destruct (PdfExport.data body) as [data|]; [|reflexivity].
  destruct (PdfExport.headers body) as [headers|]; [|reflexivity].
  cbv zeta. split; [reflexivity|].
  rewrite validHeaderValue_attachment.
  destruct (forallb _ _); [|reflexivity].
  set (maxRows := default 1000 (PdfExport.maxRows body)).
  eexists. split; [reflexivity|].
  cbn [PdfExport.bodyCells PdfExport.note PdfExport.headerCells PdfExport.disposition].
  split; [reflexivity|]. split; [|split].
  - intros Hmax. split.
    + f_equal. rewrite slice_from_start by lia. rewrite drop_0.
      destruct (Z.le_gt_cases (Z.of_nat (length data)) maxRows).
      * rewrite !take_ge by lia. reflexivity.
      * f_equal. lia.
    + destruct (Z.ltb_spec (Z.min (Z.of_nat (length data)) maxRows) (Z.of_nat (length data)));
        split; intros; try discriminate; try reflexivity; lia.
  - apply Forall_forall. intros cell Hin.
    apply list_elem_of_In, in_map_iff in Hin as (h & <- & _).
    rewrite strlen_takeChars. lia.
  - apply Forall_forall. intros cells Hin.
    apply list_elem_of_In, in_map_iff in Hin as (r & <- & _).
    apply Forall_forall. intros cell Hcell.
    apply list_elem_of_In, in_map_iff in Hcell as (h & <- & _).
    unfold PdfExport.cellValue. destruct (negb _); [|unfold JS.strlen; simpl; lia].
    rewrite strlen_takeChars. lia.
Qed.

End Exports.

(** ** Types of single values *)
Section DetectedTypes.
Context `{DateHost}.

(** X17: numbers are typed as number and [Date] objects as date; [null],
    [undefined] and the empty text as text.  A text is typed as a date
    only when, trimmed, it has exactly ten characters and the date
    parser accepts it, and as a number only when [Number] of it is
    finite and [parseFloat] of it is not NaN. *)
Theorem detected_types (s : string) (n : JS.number) (t : Z) :
  Upload.detectDataType (VNum n) = TNumber
  ∧ Upload.detectDataType (VDate t) = TDate
  ∧ Upload.detectDataType VNull = TText
  ∧ Upload.detectDataType VUndefined = TText
  ∧ Upload.detectDataType (VStr "") = TText
  ∧ (Upload.detectDataType (VStr s) = TDate →
     String.length (JS.trim s) = 10%nat ∧ is_Some (Date_parse (JS.trim s)))
  ∧ (Upload.detectDataType (VStr s) = TNumber →
     JS.isFinite_num (JS.StringToNumber s) = true
     ∧ JS.isNaN_num (JS.parseFloat_string s) = false).
Proof.
  do 5 (split; [reflexivity|]).
  destruct s as [|c s]; [split; discriminate|].
  unfold Upload.detectDataType. cbn [isNullish isEmptyString orb ToString].
  set (text := String c s).
  destruct (existsb (fun pattern => Upload.test pattern (JS.trim text)) Upload.datePatterns)
    eqn:Hpattern.
  - destruct (isValidDate (Date_new (VStr (JS.trim text)))) eqn:Hvalid; cbn [andb].
    + split; [intros _|discriminate]. split.
      * apply existsb_exists in Hpattern as (pattern & Hin & Htest).
        apply pattern_length in Htest. rewrite Htest.
        simpl in Hin. destruct Hin as [<-|[<-|[<-|[<-|[]]]]]; reflexivity.
      * unfold isValidDate in Hvalid. now apply bool_decide_eq_true in Hvalid.
    + unfold isNaN, isFinite, parseFloat. cbn [ToNumber ToString].
      destruct (JS.isNaN_num (JS.StringToNumber text)),
               (JS.isNaN_num (JS.parseFloat_string text)),
               (JS.isFinite_num (JS.StringToNumber text)); cbn;
        split; try discriminate; intros _; split; reflexivity.
  - cbn [andb]. unfold isNaN, isFinite, parseFloat. cbn [ToNumber ToString].
    destruct (JS.isNaN_num (JS.StringToNumber text)),
             (JS.isNaN_num (JS.parseFloat_string text)),
             (JS.isFinite_num (JS.StringToNumber text)); cbn;
      split; try discriminate; intros _; split; reflexivity.
Qed.

End DetectedTypes.

(** ** The client and the server *)

Lemma includes_empty (s : string) : JS.includes s "" = true.
Proof. now destruct s. Qed.

Lemma removeFilter_updateFilter (fs : list Client.uiFilter) (i : Z)
    (field : Client.field) (v : string) :
  Client.removeFilter (Client.updateFilter fs i field v) i = Client.removeFilter fs i.
Proof.
  unfold Client.removeFilter, Client.updateFilter. cbv zeta.
  induction fs as [|f fs IH]; [reflexivity|]. cbn [map List.filter].
  destruct (Z.eqb_spec (Client.id f) i) as [Heq|Hne].
  - rewrite <- IH.
    destruct field, (String.eqb v "isEmpty" || String.eqb v "isNotEmpty");
      cbn [Client.setField Client.id]; rewrite Heq, Z.eqb_refl; reflexivity.
  - assert ((Client.id f =? i) = false) as -> by lia. cbn [negb]. now rewrite IH.
Qed.

(** X26: the server's file filter lets a file through exactly when its
    MIME type is one of the two Excel types or the client's name check
    would send it; so every file the client sends is accepted. *)
Theorem file_filter_accepts (f : UploadRoute.file) :
  UploadRoute.fileFilter f = inr tt
  ↔ includes UploadRoute.allowedMimes (UploadRoute.mimetype f) = true
    ∨ Client.sendsFile (UploadRoute.originalname f) = true.
Proof.
  unfold UploadRoute.fileFilter, Client.sendsFile.
  destruct (includes UploadRoute.allowedMimes (UploadRoute.mimetype f)),
           (JS.endsWith (UploadRoute.originalname f) ".xls"),
           (JS.endsWith (UploadRoute.originalname f) ".xlsx"); simpl;
    split; try tauto; try discriminate; intros [?|?]; discriminate.
Qed.

(** X27: editing a filter in the builder keeps the ids and the order of
    the list and leaves the filters with another id as they are (editing
    and then removing is removing); once a filter is removed, editing
    under its id changes nothing; and choosing a condition resets the
    second value, and the value too for an emptiness check. *)
Theorem builder_edits (fs : list Client.uiFilter) (i : Z) (field : Client.field)
    (v : string) :
  map Client.id (Client.updateFilter fs i field v) = map Client.id fs
  ∧ Client.removeFilter (Client.updateFilter fs i field v) i = Client.removeFilter fs i
  ∧ Client.updateFilter (Client.removeFilter fs i) i field v = Client.removeFilter fs i
  ∧ Forall (fun f => Client.id f = i →
                     Client.condition f = v
                     ∧ Client.value2 f = ""
                     ∧ (Client.needsValue v = false → Client.value f = ""))
           (Client.updateFilter fs i Client.FCondition v).
Proof.
  split; [|split; [apply removeFilter_updateFilter|split]].
  - unfold Client.updateFilter. rewrite map_map. apply map_ext. intros f.
    destruct (Client.id f =? i); [|reflexivity].
    destruct field, (String.eqb v "isEmpty" || String.eqb v "isNotEmpty"); reflexivity.
  - unfold Client.updateFilter, Client.removeFilter.
    induction fs as [|f fs IH]; [reflexivity|]. cbn [List.filter].
    destruct (Z.eqb_spec (Client.id f) i) as [Heq|Hne]; cbn [negb]; [exact IH|].
    cbn [map]. assert ((Client.id f =? i) = false) as -> by lia. now rewrite IH.
  - unfold Client.updateFilter. apply Forall_forall. intros g Hg.
    apply list_elem_of_In, in_map_iff in Hg as (f & <- & _).
    destruct (Z.eqb_spec (Client.id f) i) as [Heq|Hne].
    + intros _. unfold Client.needsValue.
      destruct (String.eqb v "isEmpty"), (String.eqb v "isNotEmpty"); simpl;
        repeat split; intros; try discriminate; reflexivity.
    + intros Hid. contradiction.
Qed.

Section ClientAndServer.
Context `{DateHost}.

(** X28: every condition that the builder offers, for any column type,
    is a case of the evaluator's [switch] and is really decided there:
    some row and value make it false (the fallback for unknown names
    never does). *)
Theorem offered_conditions_are_decided (type : dataType) :
  Forall (fun name =>
            name ∈ knownConditions
            ∧ ∃ (r : row) (f : filter), condition f = name ∧ evaluateFilter r f = false)
         (Client.FILTER_CONDITIONS type).
Proof.
  destruct type; cbn [Client.FILTER_CONDITIONS];
    repeat (apply Forall_cons; split;
            [split;
             [apply list_elem_of_In; simpl; tauto
             |first
                [ eexists [], {| column := "c"; condition := _; value := VStr "x";
                                 value2 := VStr "x" |};
                  split; reflexivity
                | eexists [("c", VStr "1")],
                          {| column := "c"; condition := _; value := VStr "1";
                             value2 := VStr "1" |};
                  split; reflexivity ]]
            |]);
    apply Forall_nil_2.
Qed.

(** X29: the filter that the builder adds for the first header column
    has the given id and that column; sent with its still empty value,
    it holds of no row when the column is typed as number and of every
    row when it is typed as text (for a date column it is [before]). *)
Theorem new_filter_effect (headers : list string) (columnTypes : gmap string dataType)
    (localFilters : list Client.uiFilter) (now : Z) (first : string) (type : dataType)
    (r : row) :
  head headers = Some first →
  columnTypes !! first = Some type →
  ∃ f, Client.addFilter headers columnTypes localFilters now = localFilters ++ [f]
    ∧ Client.id f = now
    ∧ Client.column f = first
    ∧ match type with
      | TNumber => evaluateFilter r (Client.sent f) = false
      | TText => evaluateFilter r (Client.sent f) = true
      | TDate => Client.condition f = "before"
      end.
Proof.
  intros Hhead Htype. unfold Client.addFilter. rewrite Hhead, Htype.
  eexists. split; [reflexivity|]. split; [reflexivity|]. split; [reflexivity|].
  destruct type; cbn; try reflexivity.
  - unfold evaluateFilter. simpl. apply includes_empty.
  - unfold evaluateFilter. simpl. now rewrite andb_false_r.
Qed.

End ClientAndServer.

(** ** Instances of the further properties *)

Lemma text_conditions_fold_case_witness :
  let r : row := [("name", VStr "Bob")] in
  let f := Examples.condition_on "name" "contains" (VStr "BO") in
  condition f ∈ foldingConditions
  ∧ get r (column f) = VStr "Bob"
  ∧ value f = VStr "BO"
  ∧ evaluateFilter (H := ExampleHost.host) r f
    = evaluateFilter (H := ExampleHost.host) [(column f, VStr (JS.toLowerCase "Bob"))]
        {| column := column f; condition := condition f;
           value := VStr (JS.toLowerCase "BO"); value2 := value2 f |}.
Proof.
  cbv zeta.
  assert (condition (Examples.condition_on "name" "contains" (VStr "BO"))
            ∈ foldingConditions) as Hin
    by (apply list_elem_of_In; simpl; tauto).
  split; [exact Hin|]. split; [reflexivity|]. split; [reflexivity|].
  exact (text_conditions_fold_case (H := ExampleHost.host)
           [("name", VStr "Bob")] _ "Bob" "BO" Hin eq_refl eq_refl).
Defined.

(** A stale value left in a filter whose condition was switched to
    [isEmpty] changes nothing. *)
Lemma evaluateFilter_reads_shown_inputs_witness :
  let r : row := [("note", VStr "")] in
  let f := Examples.condition_on "note" "isEmpty" VUndefined in
  let g := {| column := "note"; condition := "isEmpty"; value := VStr "stale";
              value2 := VStr "x" |} in
  column g = column f
  ∧ condition g = condition f
  ∧ (Client.needsValue (condition f) = true → value g = value f)
  ∧ (Client.needsSecondValue (condition f) = true → value2 g = value2 f)
  ∧ evaluateFilter (H := ExampleHost.host) r g
    = evaluateFilter (H := ExampleHost.host) r f.
Proof.
  cbv zeta.
  assert (Client.needsValue (condition (Examples.condition_on "note" "isEmpty" VUndefined))
          = true →
          value {| column := "note"; condition := "isEmpty"; value := VStr "stale";
                   value2 := VStr "x" |}
          = value (Examples.condition_on "note" "isEmpty" VUndefined)) as Hvalue
    by (intros Hneeds; discriminate Hneeds).
  assert (Client.needsSecondValue
            (condition (Examples.condition_on "note" "isEmpty" VUndefined)) = true →
          value2 {| column := "note"; condition := "isEmpty"; value := VStr "stale";
                    value2 := VStr "x" |}
          = value2 (Examples.condition_on "note" "isEmpty" VUndefined)) as Hvalue2
    by (intros Hneeds; discriminate Hneeds).
  split; [reflexivity|]. split; [reflexivity|]. split; [exact Hvalue|].
  split; [exact Hvalue2|].
  exact (evaluateFilter_reads_shown_inputs (H := ExampleHost.host)
           [("note", VStr "")]
           (Examples.condition_on "note" "isEmpty" VUndefined)
           {| column := "note"; condition := "isEmpty"; value := VStr "stale";
              value2 := VStr "x" |}
           eq_refl eq_refl Hvalue Hvalue2).
Defined.

Lemma isEmpty_of_text_witness :
  let r : row := [("note", VStr "  ")] in
  let f := Examples.condition_on "note" "isEmpty" VUndefined in
  condition f = "isEmpty"
  ∧ get r (column f) = VStr "  "
  ∧ evaluateFilter (H := ExampleHost.host) r f = blank "  ".
Proof.
  cbv zeta. split; [reflexivity|]. split; [reflexivity|].
  exact (isEmpty_of_text (H := ExampleHost.host) [("note", VStr "  ")]
           (Examples.condition_on "note" "isEmpty" VUndefined) "  " eq_refl eq_refl).
Defined.

(** The operator is compared as it is written: [or] in lower case is
    not [OR]. *)
Lemma other_operators_mean_and_witness :
  let filters := Some [Examples.condition_on "c" "greaterThan" (VStr "1")] in
  Some "or" ≠ Some "OR"
  ∧ applyFiltersWithLogic (H := ExampleHost.host) Examples.sheet filters (Some "or")
    = applyFilters (H := ExampleHost.host) Examples.sheet filters.
Proof.
  cbv zeta.
  assert (Some "or" ≠ Some "OR") as Hne by (intros Heq; discriminate Heq).
  split; [exact Hne|].
  exact (other_operators_mean_and (H := ExampleHost.host) Examples.sheet _ _ Hne).
Defined.

Lemma unknown_conditions_pass_witness :
  let filters := [Examples.condition_on "c" "matches" (VStr "x")] in
  Forall (fun f => condition f ∉ knownConditions) filters
  ∧ applyFilters (H := ExampleHost.host) Examples.sheet (Some filters) = Examples.sheet
  ∧ applyFiltersWithLogic (H := ExampleHost.host) Examples.sheet (Some filters) (Some "OR")
    = Examples.sheet.
Proof.
  cbv zeta.
  assert (Forall (fun f => condition f ∉ knownConditions)
            [Examples.condition_on "c" "matches" (VStr "x")]) as Hunknown.
  { apply Forall_cons_2; [|apply Forall_nil_2].
    rewrite list_elem_of_In. simpl. intuition discriminate. }
  split; [exact Hunknown|].
  exact (unknown_conditions_pass (H := ExampleHost.host) Examples.sheet _ (Some "OR")
           Hunknown).
Defined.

Lemma small_sheets_are_text_witness :
  (length Examples.sheet < 10)%nat
  ∧ match Upload.parseExcel (H := ExampleHost.host) Examples.sheet with
    | inl _ => Examples.sheet = []
    | inr p => Forall (fun h => Upload.columnTypes p !! h = Some TText) (Upload.headers p)
    end.
Proof.
  assert (length Examples.sheet < 10)%nat as Hsmall by (simpl; lia).
  split; [exact Hsmall|].
  exact (small_sheets_are_text (H := ExampleHost.host) Examples.sheet Hsmall).
Defined.

(** Of the four cells of the column, sampled in full, three are typed as
    number and none as anything else. *)
Lemma plurality_type_witness :
  (∀ t', t' ≠ TNumber →
     (countType (H := ExampleHost.host) t'
        (Upload.sampleValues Examples.sheet 4 "c")
      < countType (H := ExampleHost.host) TNumber
          (Upload.sampleValues Examples.sheet 4 "c"))%nat)
  ∧ Upload.columnType (H := ExampleHost.host) Examples.sheet 4 "c" = TNumber.
Proof.
  assert (∀ t', t' ≠ TNumber →
            (countType (H := ExampleHost.host) t'
               (Upload.sampleValues Examples.sheet 4 "c")
             < countType (H := ExampleHost.host) TNumber
                 (Upload.sampleValues Examples.sheet 4 "c"))%nat) as Hmost.
  { intros t' Hne. destruct t'; [|contradiction|]; vm_compute; lia. }
  split; [exact Hmost|].
  exact (plurality_type (H := ExampleHost.host) Examples.sheet 4 "c" TNumber Hmost).
Defined.

Lemma inner_join_rows_witness :
  let input := {| v_referenceData := Examples.regions;
                  v_primaryData := Examples.people;
                  v_keyColumns := [Examples.idKey];
                  refHeaders := ["id"; "region"];
                  primaryHeaders := ["id"; "name"] |} in
  let joined : row := [("id", VStr "a1"); ("name", VStr "Bob");
                       ("ref_id", VStr "A1"); ("ref_region", VStr "East")] in
  "inner" ≠ "left"
  ∧ (joined ∈ data (respond (H := ExampleHost.host) input None "inner" "AND" None None)
     ↔ ∃ primaryRow refRow,
         primaryRow ∈ v_primaryData input
         ∧ refRow ∈ filterReference (H := ExampleHost.host) (v_referenceData input)
                      None "AND"
         ∧ refKey (H := ExampleHost.host) (v_keyColumns input) refRow
           = primaryKey (H := ExampleHost.host) (v_keyColumns input) primaryRow
         ∧ joined = mergeMatch (refHeaders input) (primaryHeaders input)
                      primaryRow refRow).
Proof.
  cbv zeta.
  assert ("inner" ≠ "left") as Hne by (intros Heq; discriminate Heq).
  split; [exact Hne|].
  exact (inner_join_rows (H := ExampleHost.host)
           {| v_referenceData := Examples.regions;
              v_primaryData := Examples.people;
              v_keyColumns := [Examples.idKey];
              refHeaders := ["id"; "region"];
              primaryHeaders := ["id"; "name"] |}
           None "inner" "AND" _ Hne).
Defined.

Lemma header_covers_rows_witness :
  let input := {| v_referenceData := Examples.regions;
                  v_primaryData := Examples.people;
                  v_keyColumns := [Examples.idKey];
                  refHeaders := ["id"; "region"];
                  primaryHeaders := ["id"; "name"] |} in
  Forall (fun p => keys p ⊆ primaryHeaders input) (v_primaryData input)
  ∧ Forall (fun joined =>
              keys joined
              ⊆ headers (respond (H := ExampleHost.host) input None "left" "AND" None None))
           (data (respond (H := ExampleHost.host) input None "left" "AND" None None)).
Proof.
  cbv zeta.
  assert (Forall (fun p => keys p ⊆ ["id"; "name"]) Examples.people) as Hkeys.
  { apply Forall_cons_2; [|apply Forall_cons_2; [|apply Forall_nil_2]];
      intros h Hh; exact Hh. }
  split; [exact Hkeys|].
  exact (header_covers_rows (H := ExampleHost.host)
           {| v_referenceData := Examples.regions;
              v_primaryData := Examples.people;
              v_keyColumns := [Examples.idKey];
              refHeaders := ["id"; "region"];
              primaryHeaders := ["id"; "name"] |}
           None "left" "AND" Hkeys).
Defined.

(** Both sheets have a column [id]: it is detected as the key, and the
    request built from it is answered. *)
Lemma detected_key_is_accepted_witness :
  ∃ referenceData mainData,
    sheetRows Examples.regions
    ∧ sheetRows Examples.people
    ∧ Upload.parseExcel (H := ExampleHost.host) Examples.regions = inr referenceData
    ∧ Upload.parseExcel (H := ExampleHost.host) Examples.people = inr mainData
    ∧ Client.autoDetectKeyColumn referenceData mainData = Some Examples.idKey
    ∧ ∃ res, handler (H := ExampleHost.host)
               (Client.referenceFilterBody referenceData mainData Examples.idKey [])
             = Ok res
        ∧ headers res
          = Upload.headers mainData ++ map prefixed (Upload.headers referenceData).
Proof.
  assert (sheetRows Examples.regions) as Hregions
    by (repeat (apply Forall_cons_2 || apply Forall_nil_2); reflexivity).
  assert (sheetRows Examples.people) as Hpeople
    by (repeat (apply Forall_cons_2 || apply Forall_nil_2); reflexivity).
  eexists _, _.
  split; [exact Hregions|]. split; [exact Hpeople|].
  split; [reflexivity|]. split; [reflexivity|]. split; [reflexivity|].
  exact (detected_key_is_accepted (H := ExampleHost.host)
           Examples.regions Examples.people _ _ Examples.idKey [] Hregions Hpeople
           eq_refl eq_refl eq_refl).
Defined.

(** The first column is a number column: the new filter is [equals]
    with an empty value and holds of no row. *)
Lemma new_filter_effect_witness :
  let headers := ["amount"; "name"] in
  let columnTypes : gmap string dataType := <["amount" := TNumber]> ∅ in
  let r : row := [("amount", VNum (JS.of_Z 5)); ("name", VStr "Bob")] in
  head headers = Some "amount"
  ∧ columnTypes !! "amount" = Some TNumber
  ∧ ∃ f, Client.addFilter headers columnTypes [] 1700000000000 = [] ++ [f]
      ∧ Client.id f = 1700000000000
      ∧ Client.column f = "amount"
      ∧ evaluateFilter (H := ExampleHost.host) r (Client.sent f) = false.
Proof.
  cbv zeta.
  assert ((<["amount" := TNumber]> ∅ : gmap string dataType) !! "amount" = Some TNumber)
    as Htype by apply lookup_insert_eq.
  split; [reflexivity|]. split; [exact Htype|].
  exact (new_filter_effect (H := ExampleHost.host) ["amount"; "name"] _ [] 1700000000000
           "amount" TNumber [("amount", VNum (JS.of_Z 5)); ("name", VStr "Bob")]
           eq_refl Htype).
Defined.
